(** * analyze_data.py: the statistics of the VR training study

    A shallow embedding of [research-paper/scripts/analyze_data.py].

    The script computes in IEEE binary64.  The embedding keeps the shape of
    that arithmetic (finite values, the two infinities and NaN, with the
    IEEE rules for the special values) and idealises the finite part:
    finite results are exact, there is no rounding, no overflow and no
    signed zero.  Data read from the CSV files are rationals; every
    statistic that does not go through [np.sqrt] is evaluated over [Q] and
    runs inside Rocq, the ones that do are evaluated over [R].

    pandas, numpy and scipy are libraries the script calls: [mean], [var],
    [std], [ttest_ind] and [pearson] follow the definitions these libraries
    document for the defaults the script uses ([ddof=1], [equal_var=True],
    Pearson's r through [np.corrcoef]).  Of matplotlib only the data handed
    to each plotting call is kept; styling calls (legend, grid, ticks,
    colours, layout) and [os.makedirs] leave no trace in the model. *)

From Stdlib Require Import List Bool Arith ZArith QArith Qreals Reals ROrderedType.
From Stdlib Require String Ascii.
From Stdlib Require Import Lia Lra Psatz Permutation Sorted.
Import ListNotations.
Import String.StringSyntax Ascii.AsciiSyntax.
Delimit Scope char_scope with char.
Delimit Scope string_scope with string.
Bind Scope string_scope with String.string.

Set Implicit Arguments.

(** ** Numbers *)

(** The carrier of the finite values: the field operations and a three-way
    comparison.  [Q] is the instance that runs, [R] the one with [sqrt]. *)
Class Carrier (A : Type) : Type := {
  czero : A;
  cadd : A -> A -> A;
  cmul : A -> A -> A;
  copp : A -> A;
  cinv : A -> A;
  ccmp : A -> A -> comparison;
  cnat : nat -> A
}.

#[export] Instance CarrierQ : Carrier Q := {|
  czero := 0%Q;
  cadd := Qplus;
  cmul := Qmult;
  copp := Qopp;
  cinv := Qinv;
  ccmp := Qcompare;
  cnat := fun n => inject_Z (Z.of_nat n)
|}.

#[export] Instance CarrierR : Carrier R := {|
  czero := 0%R;
  cadd := Rplus;
  cmul := Rmult;
  copp := Ropp;
  cinv := Rinv;
  ccmp := Rcompare;
  cnat := INR
|}.

(** A float64 as the script sees it: a finite value, an infinity or NaN. *)
Inductive xnum (A : Type) : Type :=
| Fin (a : A)
| PInf
| NInf
| NaN.

Arguments PInf {A}.
Arguments NInf {A}.
Arguments NaN {A}.

Section Arithmetic.
Context {A : Type} `{Carrier A}.

(** The sign of a finite value, as a comparison with zero. *)
Definition sgn (a : A) : comparison := ccmp a czero.

Definition xopp (x : xnum A) : xnum A :=
  match x with
  | Fin a => Fin (copp a)
  | PInf => NInf
  | NInf => PInf
  | NaN => NaN
  end.

Definition xabs (x : xnum A) : xnum A :=
  match x with
  | Fin a => match sgn a with Lt => Fin (copp a) | _ => Fin a end
  | PInf | NInf => PInf
  | NaN => NaN
  end.

Definition xadd (x y : xnum A) : xnum A :=
  match x, y with
  | NaN, _ | _, NaN => NaN
  | Fin a, Fin b => Fin (cadd a b)
  | PInf, NInf | NInf, PInf => NaN
  | PInf, _ | _, PInf => PInf
  | NInf, _ | _, NInf => NInf
  end.

Definition xsub (x y : xnum A) : xnum A := xadd x (xopp y).

(** An infinity of the sign of [c]; [0 * inf] is NaN. *)
Definition inf_of_sign (c : comparison) : xnum A :=
  match c with Eq => NaN | Lt => NInf | Gt => PInf end.

Definition xmul (x y : xnum A) : xnum A :=
  match x, y with
  | NaN, _ | _, NaN => NaN
  | Fin a, Fin b => Fin (cmul a b)
  | Fin a, PInf | PInf, Fin a => inf_of_sign (sgn a)
  | Fin a, NInf | NInf, Fin a => inf_of_sign (CompOpp (sgn a))
  | PInf, PInf | NInf, NInf => PInf
  | PInf, NInf | NInf, PInf => NInf
  end.

(** numpy's true division: a finite value over zero is an infinity of the
    sign of the numerator, [0 / 0] is NaN, and nothing is raised. *)
Definition xdiv (x y : xnum A) : xnum A :=
  match x, y with
  | NaN, _ | _, NaN => NaN
  | Fin a, Fin b =>
      match sgn b with
      | Eq => inf_of_sign (sgn a)
      | _ => Fin (cmul a (cinv b))
      end
  | Fin _, PInf | Fin _, NInf => Fin czero
  | PInf, Fin b => match sgn b with Lt => NInf | _ => PInf end
  | NInf, Fin b => match sgn b with Lt => PInf | _ => NInf end
  | _, _ => NaN
  end.

(** [x ** 2]. *)
Definition xsqr (x : xnum A) : xnum A := xmul x x.

Definition xnat (n : nat) : xnum A := Fin (cnat n).

(** Python's [len(s) - 1] and [len(a) + len(b) - 2] are integers and may
    be negative. *)
Definition xint_sub (n k : nat) : xnum A :=
  if Nat.leb k n then Fin (cnat (n - k)) else Fin (copp (cnat (k - n))).

Definition csum (xs : list A) : A := fold_right cadd czero xs.

(** [Series.mean()]: the sum over the count; NaN on an empty series. *)
Definition mean (xs : list A) : xnum A :=
  match xs with
  | [] => NaN
  | _ => xdiv (Fin (csum xs)) (xnat (length xs))
  end.

(** The sum of the products of the deviations from [mx] and [my]. *)
Definition dev_products (mx my : A) (xs ys : list A) : A :=
  csum (map (fun p => cmul (cadd (fst p) (copp mx)) (cadd (snd p) (copp my)))
            (combine xs ys)).

(** [Series.var()] with pandas' default [ddof=1]: NaN when the series has
    at most one value. *)
Definition var (xs : list A) : xnum A :=
  if Nat.leb (length xs) 1 then NaN
  else match mean xs with
       | Fin m => xdiv (Fin (dev_products m m xs xs)) (xint_sub (length xs) 1)
       | _ => NaN
       end.

(** The mean of a boolean series: the share of [True]. *)
Definition bool_mean (bs : list bool) : xnum A :=
  mean (map (fun b : bool => if b then cnat 1 else czero) bs).

End Arithmetic.

Definition xQ := xnum Q.
Definition xR := xnum R.

(** The exact value of a rational statistic, as a real one. *)
Definition toR (x : xQ) : xR :=
  match x with
  | Fin q => Fin (Q2R q)
  | PInf => PInf
  | NInf => NInf
  | NaN => NaN
  end.

(** [np.sqrt]: NaN below zero. *)
Definition xsqrt (x : xR) : xR :=
  match x with
  | Fin a => match Rcompare a 0 with Lt => NaN | _ => Fin (sqrt a) end
  | PInf => PInf
  | NInf => NaN
  | NaN => NaN
  end.

(** [Series.std()], [ddof=1]. *)
Definition std (xs : list R) : xR := xsqrt (var xs).

(** ** Data model *)

(** A row of [technical_performance.csv]. *)
Record TechRow : Type := {
  session_id : Z;
  scenario : String.string;
  timestamp_sec : Q;
  duration_min : Q;
  network_latency_ms : Q;
  frame_rate_fps : Q;
  calibration_error_mm : Q;
  headset_temp_c : Q
}.

(** A row of [collaboration_performance.csv]. *)
Record CollabRow : Type := {
  interface_type : String.string;
  task_completion_time_sec : Q;
  coordination_errors : Q;
  spatial_awareness_score : Q;
  task_success : Q
}.

(** A row of [calibration_accuracy.csv]. *)
Record CalibRow : Type := {
  timestamp_min : Q;
  total_error_mm : Q
}.

(** A numeric column of a frame, as a real series. *)
Definition column {Row : Type} (f : Row -> Q) (rows : list Row) : list R :=
  map (fun r => Q2R (f r)) rows.

(** ** Exceptions *)

Inductive exn : Type :=
| IndexError
| TypeError.

Inductive outcome (A : Type) : Type :=
| Ok (a : A)
| Raise (e : exn).

Arguments Raise {A} e.

Definition obind {A B : Type} (c : outcome A) (k : A -> outcome B) : outcome B :=
  match c with
  | Ok a => k a
  | Raise e => Raise e
  end.

(** [s.iloc[0]] and [s.iloc[-1]]: IndexError on an empty frame. *)
Definition iloc_first {A : Type} (l : list A) : outcome A :=
  match l with
  | [] => Raise IndexError
  | x :: _ => Ok x
  end.

Fixpoint iloc_last {A : Type} (l : list A) : outcome A :=
  match l with
  | [] => Raise IndexError
  | [x] => Ok x
  | _ :: l' => iloc_last l'
  end.

(** ** RQ1: achievement rates (lines 46 and 54) *)

(** [(tech_perf['network_latency_ms'] <= 75).mean() * 100] *)
Definition latency_achievement (tech : list TechRow) : xQ :=
  xmul (bool_mean (map (fun r => Qle_bool (network_latency_ms r) 75) tech))
       (Fin 100%Q).

(** [(tech_perf['frame_rate_fps'] >= 90).mean() * 100] *)
Definition fps_achievement (tech : list TechRow) : xQ :=
  xmul (bool_mean (map (fun r => Qle_bool 90 (frame_rate_fps r)) tech))
       (Fin 100%Q).

(** ** RQ2 and RQ3: the two-sample test and the effect size (lines 88-102) *)

(** [collab_perf[collab_perf['interface_type'] == label]]: boolean indexing
    yields a new frame with the selected rows, in their order. *)
Definition by_interface (label : String.string) (collab : list CollabRow)
  : list CollabRow :=
  filter (fun r => String.eqb (interface_type r) label) collab.

(** Line 91 (and 99): the effect size, as the script writes it. *)
Definition cohens_d (b w : list R) : xR :=
  xdiv (xsub (mean b) (mean w))
       (xsqrt (xdiv (xadd (xmul (xint_sub (length b) 1) (xsqr (std b)))
                          (xmul (xint_sub (length w) 1) (xsqr (std w))))
                    (xint_sub (length b + length w) 2))).

(** Line 93 (and 101): the percentage improvement. *)
Definition improvement_pct (b w : list Q) : xQ :=
  xmul (xdiv (xsub (mean b) (mean w)) (mean b)) (Fin 100%Q).

Section StudentT.

(** The survival function of Student's t distribution, [sf x df], of
    [scipy.stats.distributions.t]: a special function the embedding takes
    as given. *)
Variable t_sf : R -> R -> R.

(** The two-sided p-value [2 * sf(|t|, df)]; [sf(inf) = 0]. *)
Definition two_sided_p (t df : xR) : xR :=
  match xabs t, df with
  | Fin a, Fin d => Fin (2 * t_sf a d)%R
  | PInf, Fin _ => Fin 0%R
  | _, _ => NaN
  end.

(** [scipy.stats.ttest_ind(a, b)] with its defaults, so with
    [equal_var=True]: the pooled-variance t statistic and its two-sided
    p-value.  A sample too small for a variance gives NaN, not an
    exception. *)
Definition ttest_ind (a b : list R) : xR * xR :=
  let df := xint_sub (length a + length b) 2 in
  let svar := xdiv (xadd (xmul (xint_sub (length a) 1) (var a))
                         (xmul (xint_sub (length b) 1) (var b))) df in
  let denom := xsqrt (xmul svar (xadd (xdiv (xnat 1) (xnat (length a)))
                                      (xdiv (xnat 1) (xnat (length b))))) in
  let t := xdiv (xsub (mean a) (mean b)) denom in
  (t, two_sided_p t df).

(** What line 92 prints: t, p and Cohen's d. *)
Definition hypothesis_test (b w : list R) : xR * xR * xR :=
  (ttest_ind b w, cohens_d b w).

End StudentT.

(** ** RQ4: drift per session (lines 122-145) *)

Section Sorting.
Variable A : Type.
Variable leb : A -> A -> bool.

Fixpoint insert_sorted (x : A) (l : list A) : list A :=
  match l with
  | [] => [x]
  | y :: l' => if leb x y then x :: l else y :: insert_sorted x l'
  end.

(** Ascending order; equal elements keep their order. *)
Definition sort_by (l : list A) : list A := fold_right insert_sorted [] l.

Variable eqb : A -> A -> bool.

(** [Series.unique()]: the distinct values, in order of first appearance. *)
Fixpoint unique_by (l : list A) : list A :=
  match l with
  | [] => []
  | x :: l' => x :: filter (fun y => negb (eqb x y)) (unique_by l')
  end.

End Sorting.

(** [df.sort_values(key)]: ascending by one numeric column (pandas leaves
    the order of rows with equal keys to the sort kind; here they keep their
    order). *)
Definition sort_values {Row : Type} (key : Row -> Q) (rows : list Row)
  : list Row :=
  sort_by (fun x y => Qle_bool (key x) (key y)) rows.

(** [tech_perf[tech_perf['session_id'] == session]] *)
Definition by_session (session : Z) (tech : list TechRow) : list TechRow :=
  filter (fun r => Z.eqb (session_id r) session) tech.

(** [sorted(tech_perf['session_id'].unique())] *)
Definition sessions (tech : list TechRow) : list Z :=
  sort_by Z.leb (unique_by Z.eqb (map session_id tech)).

Record SessionReport : Type := {
  rep_scenario : String.string;
  rep_duration : Q;
  fps_drift : Q;
  fps_drift_rate : xQ;
  calib_drift : Q;
  calib_drift_rate : xQ;
  latency_jitter : xR;
  fps_final : Q;
  fps_pass : bool
}.

(** Lines 126-145: the drift of one session, from its sorted rows. *)
Definition drift_of (session_data : list TechRow) : outcome SessionReport :=
  obind (iloc_first session_data) (fun first =>
  obind (iloc_last session_data) (fun last =>
  let fps_initial := frame_rate_fps first in
  let fps_final := frame_rate_fps last in
  let fps_drift := (fps_initial - fps_final)%Q in
  let calib_initial := calibration_error_mm first in
  let calib_final := calibration_error_mm last in
  let calib_drift := (calib_final - calib_initial)%Q in
  let latency_jitter := std (column network_latency_ms session_data) in
  let duration := duration_min first in
  let scenario := scenario first in
  Ok {| rep_scenario := scenario;
        rep_duration := duration;
        fps_drift := fps_drift;
        fps_drift_rate := xdiv (Fin fps_drift) (Fin duration);
        calib_drift := calib_drift;
        calib_drift_rate := xdiv (Fin calib_drift) (Fin duration);
        latency_jitter := latency_jitter;
        fps_final := fps_final;
        fps_pass := Qle_bool 85 fps_final |})).

(** The body of the loop of line 122, for one session: line 123 selects and
    sorts the rows, the rest is [drift_of]. *)
Definition session_report (tech : list TechRow) (session : Z)
  : outcome SessionReport :=
  drift_of (sort_values timestamp_sec (by_session session tech)).

(** ** Correlations (lines 149-151) *)

(** [np.clip(r, -1, 1)] *)
Definition clip1 (x : xR) : xR :=
  match x with
  | Fin a =>
      match Rcompare a (-1) with
      | Lt => Fin (-1)%R
      | _ => match Rcompare a 1 with Gt => Fin 1%R | _ => Fin a end
      end
  | PInf => Fin 1%R
  | NInf => Fin (-1)%R
  | NaN => NaN
  end.

(** The covariance of [np.cov] (normalised by [n - 1]). *)
Definition cov (xs ys : list R) : xR :=
  match mean xs, mean ys with
  | Fin mx, Fin my =>
      xdiv (Fin (dev_products mx my xs ys)) (xint_sub (length xs) 1)
  | _, _ => NaN
  end.

(** [Series.corr], Pearson's r: pandas hands the two columns to
    [np.corrcoef], which divides the covariance by the two standard
    deviations in turn and clips the result to [-1, 1]. *)
Definition pearson (xs ys : list R) : xR :=
  clip1 (xdiv (xdiv (cov xs ys) (xsqrt (cov xs xs))) (xsqrt (cov ys ys))).

Definition temp_fps_corr (tech : list TechRow) : xR :=
  pearson (column headset_temp_c tech) (column frame_rate_fps tech).

Definition temp_calib_corr (tech : list TechRow) : xR :=
  pearson (column headset_temp_c tech) (column calibration_error_mm tech).

Definition temp_latency_corr (tech : list TechRow) : xR :=
  pearson (column headset_temp_c tech) (column network_latency_ms tech).

(** ** Strings of the figure labels *)

Definition is_upper (c : Ascii.ascii) : bool :=
  let n := Ascii.nat_of_ascii c in Nat.leb 65 n && Nat.leb n 90.

Definition is_lower (c : Ascii.ascii) : bool :=
  let n := Ascii.nat_of_ascii c in Nat.leb 97 n && Nat.leb n 122.

Definition to_upper (c : Ascii.ascii) : Ascii.ascii :=
  if is_lower c then Ascii.ascii_of_nat (Ascii.nat_of_ascii c - 32) else c.

Definition to_lower (c : Ascii.ascii) : Ascii.ascii :=
  if is_upper c then Ascii.ascii_of_nat (Ascii.nat_of_ascii c + 32) else c.

(** [str.title()] on ASCII text: a letter after a letter is lowered, any
    other letter is raised. *)
Fixpoint title_from (prev_cased : bool) (s : String.string) : String.string :=
  match s with
  | String.EmptyString => String.EmptyString
  | String.String c s' =>
      let cased := is_upper c || is_lower c in
      String.String (if cased then (if prev_cased then to_lower c else to_upper c) else c)
                    (title_from cased s')
  end.

Definition title (s : String.string) : String.string := title_from false s.

(** [s.replace("_", " ")] *)
Fixpoint underscores_to_spaces (s : String.string) : String.string :=
  match s with
  | String.EmptyString => String.EmptyString
  | String.String c s' =>
      String.String (if Ascii.eqb c "_"%char then " "%char else c)
                    (underscores_to_spaces s')
  end.

(** [s.split("_")]: the current field, then the rest. *)
Fixpoint split_underscore (cur : String.string) (s : String.string)
  : list String.string :=
  match s with
  | String.EmptyString => [cur]
  | String.String c s' =>
      if Ascii.eqb c "_"%char then cur :: split_underscore String.EmptyString s'
      else split_underscore (String.append cur (String.String c String.EmptyString)) s'
  end.

(** [scenario.split("_")[1].title()]: IndexError without an underscore. *)
Definition scenario_short (scenario : String.string) : outcome String.string :=
  match split_underscore String.EmptyString scenario with
  | _ :: second :: _ => Ok (title second)
  | _ => Raise IndexError
  end.

(** ** Output *)

(** A piece of printed text: a literal or an interpolated value with its
    format (the number of decimals of [:.Nf], or the default repr). *)
Inductive piece : Type :=
| Lit (s : String.string)
| FmtQ (x : xQ) (decimals : nat)
| FmtR (x : xR) (decimals : nat)
| ValQ (x : xQ)
| ValR (x : xR)
| ValZ (z : Z)
| ValNat (n : nat)
| DirCount (path : String.string).

Definition text : Type := list piece.

(** What the script hands to matplotlib. *)
Inductive draw_cmd : Type :=
| Subplots (nrows ncols : nat)
| PlotLine (ax : nat * nat) (xs ys : list Q) (label : text)
| Axhline (ax : nat * nat) (y : Q) (label : String.string)
| SetTitle (ax : nat * nat) (t : String.string)
| SetLabels (ax : nat * nat) (xlabel ylabel : String.string)
| SetYlim (ax : nat * nat) (lo hi : Q)
| Bars (ax : nat * nat) (heights yerr : list xR)
| Segment (ax : nat * nat) (y : xR)
| Annotate (ax : nat * nat) (y : xR) (t : text)
| Scatter (ax : nat * nat) (xs ys colour : list Q)
| FitLine (ax : nat * nat) (xs ys : list Q) (label : text)
| Close.

Inductive event : Type :=
| Print (t : text)
| PrintTable (columns : list String.string) (rows : list text)
| Draw (c : draw_cmd)
| Savefig (path : String.string).

(** ** The interpreter state: the frames and what was written *)

(** A data frame object. *)
Inductive frame : Type :=
| TechFrame (rows : list TechRow)
| CollabFrame (rows : list CollabRow)
| CalibFrame (rows : list CalibRow).

(** A reference to a frame object: its index in the heap. *)
Definition ref : Type := nat.

(** The heap, the output so far, and the heap as it was after each
    operation that wrote to it (kept for the proofs: the script cannot read
    it). *)
Record state : Type := {
  heap : list frame;
  output : list event;
  snapshots : list (list frame)
}.

(** A computation ends with a value or an exception; the state survives
    either way. *)
Definition M (A : Type) : Type := state -> outcome A * state.

Definition ret {A : Type} (a : A) : M A := fun st => (Ok a, st).

Definition bind {A B : Type} (c : M A) (k : A -> M B) : M B :=
  fun st =>
    match c st with
    | (Ok a, st') => k a st'
    | (Raise e, st') => (Raise e, st')
    end.

Definition raise {A : Type} (e : exn) : M A := fun st => (Raise e, st).

Definition lift {A : Type} (o : outcome A) : M A := fun st => (o, st).

Declare Scope py_scope.
Delimit Scope py_scope with py.
Notation "x <- c ;; k" := (bind c (fun x => k))
  (at level 61, c at next level, right associativity) : py_scope.
Notation "c ;; k" := (bind c (fun _ => k))
  (at level 61, right associativity) : py_scope.
Local Open Scope py_scope.

Definition set_heap (h : list frame) (st : state) : state :=
  {| heap := h; output := output st; snapshots := snapshots st ++ [h] |}.

(** A new object. *)
Definition alloc (f : frame) : M ref :=
  fun st => (Ok (length (heap st)), set_heap (heap st ++ [f]) st).

Definition deref (r : ref) : M frame :=
  fun st =>
    match nth_error (heap st) r with
    | Some f => (Ok f, st)
    | None => (Raise TypeError, st)
    end.

Fixpoint replace_nth {A : Type} (n : nat) (x : A) (l : list A) : list A :=
  match l, n with
  | [], _ => []
  | _ :: l', O => x :: l'
  | y :: l', S n' => y :: replace_nth n' x l'
  end.

(** An update of an object in place. *)
Definition store (r : ref) (f : frame) : M unit :=
  fun st => (Ok tt, set_heap (replace_nth r f (heap st)) st).

Definition emit (e : event) : M unit :=
  fun st => (Ok tt, {| heap := heap st; output := output st ++ [e];
                       snapshots := snapshots st |}).

Definition print (t : text) : M unit := emit (Print t).
Definition draw (c : draw_cmd) : M unit := emit (Draw c).

Fixpoint for_each {A : Type} (l : list A) (body : A -> M unit) : M unit :=
  match l with
  | [] => ret tt
  | x :: l' => body x ;; for_each l' body
  end.

(** ["=" * 60] *)
Definition rule : String.string :=
  "============================================================".

(** A heading between two rules (lines 37-39 and the like). *)
Definition banner (heading : String.string) : M unit :=
  print [Lit rule] ;;
  print [Lit heading] ;;
  print [Lit rule].

Definition tech_rows (r : ref) : M (list TechRow) :=
  f <- deref r ;;
  match f with TechFrame rows => ret rows | _ => raise TypeError end.

Definition collab_rows (r : ref) : M (list CollabRow) :=
  f <- deref r ;;
  match f with CollabFrame rows => ret rows | _ => raise TypeError end.

Definition calib_rows (r : ref) : M (list CalibRow) :=
  f <- deref r ;;
  match f with CalibFrame rows => ret rows | _ => raise TypeError end.

(** [df[mask]]: boolean indexing builds a new frame and leaves [df] as it
    is. *)
Definition tech_where (r : ref) (mask : TechRow -> bool) : M ref :=
  rows <- tech_rows r ;; alloc (TechFrame (filter mask rows)).

Definition collab_where (r : ref) (mask : CollabRow -> bool) : M ref :=
  rows <- collab_rows r ;; alloc (CollabFrame (filter mask rows)).

Definition calib_where (r : ref) (mask : CalibRow -> bool) : M ref :=
  rows <- calib_rows r ;; alloc (CalibFrame (filter mask rows)).

(** [df.sort_values(key, inplace=...)]: with [inplace=True] pandas reorders
    the object and returns [None]; with the default [inplace=False] it
    returns a new frame. *)
Definition tech_sort_values (inplace : bool) (key : TechRow -> Q) (r : ref)
  : M (option ref) :=
  rows <- tech_rows r ;;
  if inplace
  then store r (TechFrame (sort_values key rows)) ;; ret None
  else r' <- alloc (TechFrame (sort_values key rows)) ;; ret (Some r').

(** Subscripting the result of a call: [None] is not subscriptable. *)
Definition not_none {A : Type} (o : option A) : M A :=
  match o with Some a => ret a | None => raise TypeError end.

(** ** The script *)

(** [min()] and [max()] of a column; NaN on an empty one. *)
Definition qmin (xs : list Q) : xQ :=
  match xs with
  | [] => NaN
  | x :: xs' => Fin (fold_left (fun m y => if Qle_bool m y then m else y) xs' x)
  end.

Definition qmax (xs : list Q) : xQ :=
  match xs with
  | [] => NaN
  | x :: xs' => Fin (fold_left (fun m y => if Qle_bool y m then m else y) xs' x)
  end.

(** [df.groupby(key)]: the groups in ascending order of their key. *)
Definition groupby {Row K : Type} (leb eqb : K -> K -> bool) (key : Row -> K)
    (rows : list Row) : list (K * list Row) :=
  map (fun k => (k, filter (fun r => eqb (key r) k) rows))
      (sort_by leb (unique_by eqb (map key rows))).

Definition qstd (xs : list Q) : xR := std (map Q2R xs).

(** [.agg(['mean', 'std', 'min', 'max'])] of one group. *)
Definition agg4 (xs : list Q) : text :=
  [ValQ (mean xs); ValR (qstd xs); ValQ (qmin xs); ValQ (qmax xs)].

(** [.agg(['mean', 'std'])] *)
Definition agg2 (xs : list Q) : text := [ValQ (mean xs); ValR (qstd xs)].

Definition xltb (x y : xR) : bool :=
  match x, y with
  | NaN, _ | _, NaN => false
  | Fin a, Fin b => match Rcompare a b with Lt => true | _ => false end
  | _, NInf => false
  | NInf, _ => true
  | PInf, _ => false
  | _, PInf => true
  end.

(** Python's [max] of a list of two or more floats. *)
Definition pymax (xs : list xR) : xR :=
  match xs with
  | [] => NaN
  | x :: xs' => fold_left (fun m y => if xltb m y then y else m) xs' x
  end.

(** The three input files, as parsed by [pd.read_csv]. *)
Record csv_files : Type := {
  technical_performance : list TechRow;
  collaboration_performance : list CollabRow;
  calibration_accuracy : list CalibRow
}.

(** The module-level variables that later parts of the script read. *)
Record globals : Type := {
  g_tech_perf : ref;
  g_collab_perf : ref;
  g_calib_acc : ref;
  g_initial_calib : list Q;
  g_baseline_times : list Q;
  g_wim_times : list Q;
  g_p_value : xR;
  g_temp_fps_corr : xR;
  g_temp_calib_corr : xR
}.

(** Lines 310-321: the dictionary behind the summary table. *)
Record SummaryData : Type := {
  Requirement : list String.string;
  Target : list String.string;
  Achieved : list text;
  Status : list String.string
}.

Definition summary_data (initial_calib : list Q) (tech : list TechRow)
    (p_value : xR) : SummaryData :=
  {| Requirement := ["Calibration"; "Network Latency"; "Frame Rate";
                     "WIM Effectiveness"; "Session Stability"]%string;
     Target := ["<10mm"; "≤75ms"; "≥90fps"; "Significant"; "30-60min"]%string;
     Achieved :=
       [ [FmtQ (mean initial_calib) 1; Lit "±"; FmtR (qstd initial_calib) 1; Lit "mm"];
         [FmtQ (mean (map network_latency_ms tech)) 1; Lit "±";
          FmtR (qstd (map network_latency_ms tech)) 1; Lit "ms"];
         [FmtQ (mean (map frame_rate_fps tech)) 1; Lit "±";
          FmtR (qstd (map frame_rate_fps tech)) 1; Lit "fps"];
         [Lit "p="; FmtR p_value 4];
         [Lit "45min optimal"] ];
     Status := ["✓ PASS"; "✓ PASS"; "✓ PASS"; "✓ PASS"; "✓ PASS"]%string |}.

(** [pd.DataFrame(summary_data).to_string(index=False)]: one line per
    requirement. *)
Fixpoint summary_rows (req tgt : list String.string) (ach : list text)
    (sta : list String.string) : list text :=
  match req, tgt, ach, sta with
  | r :: req', t :: tgt', a :: ach', s :: sta' =>
      ([Lit r; Lit t] ++ a ++ [Lit s]) :: summary_rows req' tgt' ach' sta'
  | _, _, _, _ => []
  end.

Section Script.

Variable t_sf : R -> R -> R.

(** Lines 24-31. *)
Definition load (files : csv_files) : M globals :=
  print [Lit "Loading datasets..."] ;;
  tech <- alloc (TechFrame (technical_performance files)) ;;
  collab <- alloc (CollabFrame (collaboration_performance files)) ;;
  calib <- alloc (CalibFrame (calibration_accuracy files)) ;;
  t <- tech_rows tech ;;
  c <- collab_rows collab ;;
  k <- calib_rows calib ;;
  print [Lit "Technical Performance: "; ValNat (length t);
         Lit " measurements across ";
         ValNat (length (unique_by Z.eqb (map session_id t))); Lit " sessions"] ;;
  print [Lit "Collaboration Performance: "; ValNat (length c); Lit " task trials"] ;;
  print [Lit "Calibration Accuracy: "; ValNat (length k); Lit " calibration points"] ;;
  ret {| g_tech_perf := tech; g_collab_perf := collab; g_calib_acc := calib;
         g_initial_calib := []; g_baseline_times := []; g_wim_times := [];
         g_p_value := NaN; g_temp_fps_corr := NaN; g_temp_calib_corr := NaN |}.

Definition scenario_table (col : TechRow -> Q) (tech : list TechRow) : event :=
  PrintTable ["scenario"; "mean"; "std"; "min"; "max"]%string
    (map (fun g => Lit (fst g) :: agg4 (map col (snd g)))
         (groupby String.leb String.eqb scenario tech)).

(** Lines 37-66. *)
Definition rq1 (g : globals) : M globals :=
  banner "RQ1: Technical Benchmarks Analysis" ;;
  tech <- tech_rows (g_tech_perf g) ;;
  print [Lit "Network Latency Statistics (ms):"] ;;
  emit (scenario_table network_latency_ms tech) ;;
  print [Lit "Target: ≤75ms (Van Damme et al.)"] ;;
  print [Lit "Achievement: "; FmtQ (latency_achievement tech) 1; Lit "% of measurements"] ;;
  print [Lit "Overall Mean: "; FmtQ (mean (map network_latency_ms tech)) 1; Lit " ± ";
         FmtR (qstd (map network_latency_ms tech)) 1; Lit "ms"] ;;
  print [Lit "Frame Rate Statistics (fps):"] ;;
  emit (scenario_table frame_rate_fps tech) ;;
  print [Lit "Target: ≥90fps"] ;;
  print [Lit "Achievement: "; FmtQ (fps_achievement tech) 1; Lit "% of measurements"] ;;
  print [Lit "Overall Mean: "; FmtQ (mean (map frame_rate_fps tech)) 1; Lit " ± ";
         FmtR (qstd (map frame_rate_fps tech)) 1; Lit "fps"] ;;
  calib <- calib_rows (g_calib_acc g) ;;
  print [Lit "Calibration Accuracy Statistics (mm):"] ;;
  emit (PrintTable ["timestamp_min"; "mean"; "std"; "min"; "max"]%string
          (map (fun grp => ValQ (Fin (fst grp)) :: agg4 (map total_error_mm (snd grp)))
               (groupby Qle_bool Qeq_bool timestamp_min calib))) ;;
  print [Lit "Target: <10mm (Reimer et al.)"] ;;
  r0 <- calib_where (g_calib_acc g) (fun r => Qeq_bool (timestamp_min r) 0) ;;
  rows0 <- calib_rows r0 ;;
  let initial_calib := map total_error_mm rows0 in
  print [Lit "Initial Calibration: "; FmtQ (mean initial_calib) 2; Lit "mm ± ";
         FmtR (qstd initial_calib) 2; Lit "mm"] ;;
  r45 <- calib_where (g_calib_acc g) (fun r => Qeq_bool (timestamp_min r) 45) ;;
  rows45 <- calib_rows r45 ;;
  let extended_calib := map total_error_mm rows45 in
  print [Lit "Extended (45min): "; FmtQ (mean extended_calib) 2; Lit "mm ± ";
         FmtR (qstd extended_calib) 2; Lit "mm"] ;;
  print [Lit "Drift: +"; FmtQ (xsub (mean extended_calib) (mean initial_calib)) 2;
         Lit "mm over 45 minutes"] ;;
  ret {| g_tech_perf := g_tech_perf g; g_collab_perf := g_collab_perf g;
         g_calib_acc := g_calib_acc g;
         g_initial_calib := initial_calib;
         g_baseline_times := g_baseline_times g; g_wim_times := g_wim_times g;
         g_p_value := g_p_value g; g_temp_fps_corr := g_temp_fps_corr g;
         g_temp_calib_corr := g_temp_calib_corr g |}.

(** [collab_perf[collab_perf['interface_type'] == label][col]] *)
Definition collab_column (collab : ref) (label : String.string)
    (col : CollabRow -> Q) : M (list Q) :=
  r <- collab_where collab (fun row => String.eqb (interface_type row) label) ;;
  rows <- collab_rows r ;;
  ret (map col rows).

(** Lines 88-94 and 96-102: the test, the effect size and the relative
    improvement of one measure; the p-value is returned. *)
Definition compare_measure (what gain : String.string) (b w : list Q) : M xR :=
  let '(t_stat, p_value, cohens_d) := hypothesis_test t_sf (map Q2R b) (map Q2R w) in
  print [Lit "T-test ("; Lit what; Lit "): t="; FmtR t_stat 3; Lit ", p=";
         FmtR p_value 4; Lit ", Cohen's d="; FmtR cohens_d 2] ;;
  print [Lit gain; Lit ": "; FmtQ (improvement_pct b w) 1; Lit "%"] ;;
  ret p_value.

(** Lines 72-110. *)
Definition rq2_rq3 (g : globals) : M globals :=
  banner "RQ2 & RQ3: Collaboration Effectiveness with WIM Interface" ;;
  collab <- collab_rows (g_collab_perf g) ;;
  print [Lit "Interface Comparison:"] ;;
  emit (PrintTable ["interface_type"; "task_completion_time_sec"; "coordination_errors";
                    "spatial_awareness_score"; "task_success"]%string
          (map (fun grp => Lit (fst grp)
                           :: agg2 (map task_completion_time_sec (snd grp))
                           ++ agg2 (map coordination_errors (snd grp))
                           ++ agg2 (map spatial_awareness_score (snd grp))
                           ++ [ValQ (mean (map task_success (snd grp)))])
               (groupby String.leb String.eqb interface_type collab))) ;;
  baseline_times <- collab_column (g_collab_perf g) "baseline" task_completion_time_sec ;;
  wim_times <- collab_column (g_collab_perf g) "wim" task_completion_time_sec ;;
  p_value <- compare_measure "completion time" "Time Improvement" baseline_times wim_times ;;
  baseline_errors <- collab_column (g_collab_perf g) "baseline" coordination_errors ;;
  wim_errors <- collab_column (g_collab_perf g) "wim" coordination_errors ;;
  _ <- compare_measure "coordination errors" "Error Reduction" baseline_errors wim_errors ;;
  bs <- collab_column (g_collab_perf g) "baseline" task_success ;;
  ws <- collab_column (g_collab_perf g) "wim" task_success ;;
  let baseline_success : xQ := mean bs in
  let wim_success : xQ := mean ws in
  print [Lit "Task Success Rates:"] ;;
  print [Lit "  Baseline: "; FmtQ (xmul baseline_success (Fin 100%Q)) 1; Lit "%"] ;;
  print [Lit "  WIM: "; FmtQ (xmul wim_success (Fin 100%Q)) 1; Lit "%"] ;;
  print [Lit "  Improvement: +";
         FmtQ (xmul (xsub wim_success baseline_success) (Fin 100%Q)) 1;
         Lit " percentage points"] ;;
  ret {| g_tech_perf := g_tech_perf g; g_collab_perf := g_collab_perf g;
         g_calib_acc := g_calib_acc g;
         g_initial_calib := g_initial_calib g;
         g_baseline_times := baseline_times; g_wim_times := wim_times;
         g_p_value := p_value; g_temp_fps_corr := g_temp_fps_corr g;
         g_temp_calib_corr := g_temp_calib_corr g |}.

(** Line 123 (and 223, 248): the rows of one session, sorted by time, as a
    new frame. *)
Definition session_frame (tech : ref) (session : Z) : M (list TechRow) :=
  selected <- tech_where tech (fun r => Z.eqb (session_id r) session) ;;
  sorted <- tech_sort_values false timestamp_sec selected ;;
  session_data <- not_none sorted ;;
  tech_rows session_data.

(** Lines 123-145: one turn of the drift loop. *)
Definition drift_turn (tech : ref) (session : Z) : M unit :=
  session_data <- session_frame tech session ;;
  rep <- lift (drift_of session_data) ;;
  print [Lit "Session "; ValZ session; Lit " - "; Lit (rep_scenario rep); Lit " (";
         ValQ (Fin (rep_duration rep)); Lit "min):"] ;;
  print [Lit "  FPS drift: "; FmtQ (Fin (fps_drift rep)) 2; Lit "fps (";
         FmtQ (fps_drift_rate rep) 3; Lit "fps/min)"] ;;
  print [Lit "  Calibration drift: "; FmtQ (Fin (calib_drift rep)) 2; Lit "mm (";
         FmtQ (calib_drift_rate rep) 3; Lit "mm/min)"] ;;
  print [Lit "  Latency jitter (SD): "; FmtR (latency_jitter rep) 2; Lit "ms"] ;;
  print [Lit "  Final FPS: "; FmtQ (Fin (fps_final rep)) 1; Lit " (";
         Lit (if fps_pass rep then "PASS" else "WARNING"); Lit ")"].

(** Lines 116-155. *)
Definition rq4 (g : globals) : M globals :=
  banner "RQ4: Performance Stability Over Time" ;;
  print [Lit "Performance Drift by Session:"] ;;
  tech <- tech_rows (g_tech_perf g) ;;
  for_each (sessions tech) (drift_turn (g_tech_perf g)) ;;
  print [Lit "Correlation Analysis: Temperature vs Performance:"] ;;
  tech <- tech_rows (g_tech_perf g) ;;
  let fps_corr := temp_fps_corr tech in
  let calib_corr := temp_calib_corr tech in
  let latency_corr := temp_latency_corr tech in
  print [Lit "  Temperature vs FPS: r="; FmtR fps_corr 3] ;;
  print [Lit "  Temperature vs Calibration Error: r="; FmtR calib_corr 3] ;;
  print [Lit "  Temperature vs Latency: r="; FmtR latency_corr 3] ;;
  ret {| g_tech_perf := g_tech_perf g; g_collab_perf := g_collab_perf g;
         g_calib_acc := g_calib_acc g;
         g_initial_calib := g_initial_calib g;
         g_baseline_times := g_baseline_times g; g_wim_times := g_wim_times g;
         g_p_value := g_p_value g; g_temp_fps_corr := fps_corr;
         g_temp_calib_corr := calib_corr |}.

Definition scenarios : list String.string :=
  ["scenario_basic"; "scenario_medium"; "scenario_complex"]%string.

Definition minutes (rows : list TechRow) : list Q :=
  map (fun r => (timestamp_sec r / 60)%Q) rows.

(** Lines 171-186: one panel of figure 1. *)
Definition latency_panel (tech : ref) (p : nat * String.string) : M unit :=
  let idx := fst p in
  let scenario_name := snd p in
  let ax := (idx / 2, idx mod 2)%nat in
  r <- tech_where tech (fun row => String.eqb (scenario row) scenario_name) ;;
  scenario_data <- tech_rows r ;;
  draw (PlotLine ax (minutes scenario_data) (map network_latency_ms scenario_data)
                 [Lit scenario_name]) ;;
  draw (Axhline ax 75 "Good QoE (≤75ms)") ;;
  draw (Axhline ax 175 "Acceptable (≤175ms)") ;;
  draw (Axhline ax 300 "Critical (≤300ms)") ;;
  draw (SetLabels ax "Time (minutes)" "Network Latency (ms)") ;;
  draw (SetTitle ax (title (underscores_to_spaces scenario_name))) ;;
  draw (SetYlim ax 20 50).

(** Lines 208-212: the value label over one bar. *)
Definition bar_label (p : xR * xR) : M unit :=
  let mean_val := fst p in
  let std_val := snd p in
  draw (Annotate (1, 1)%nat (xadd (xadd mean_val std_val) (Fin 5%R))
                 [FmtR mean_val 0; Lit "s"]).

(** Lines 161-217. *)
Definition figure1 (g : globals) : M globals :=
  banner "Generating Figures..." ;;
  draw (Subplots 2 2) ;;
  for_each (combine (seq 0 3) scenarios) (latency_panel (g_tech_perf g)) ;;
  let completion_means :=
    [toR (mean (g_baseline_times g)); toR (mean (g_wim_times g))] in
  let completion_stds := [qstd (g_baseline_times g); qstd (g_wim_times g)] in
  draw (Bars (1, 1)%nat completion_means completion_stds) ;;
  draw (SetTitle (1, 1)%nat "Collaboration Performance: WIM vs Baseline") ;;
  let y_max := xadd (xadd (pymax completion_means) (pymax completion_stds))
                    (Fin 30%R) in
  draw (Segment (1, 1)%nat y_max) ;;
  draw (Annotate (1, 1)%nat (xadd y_max (Fin 10%R))
                 [Lit "p="; FmtR (g_p_value g) 4; Lit "***"]) ;;
  for_each (combine completion_means completion_stds) bar_label ;;
  emit (Savefig "../figures/technical_performance_summary.png") ;;
  print [Lit "  ✓ Saved: technical_performance_summary.png"] ;;
  draw Close ;;
  ret g.

(** Lines 222-229: one line of figure 2. *)
Definition fps_line (tech : ref) (session : Z) : M unit :=
  session_data <- session_frame tech session ;;
  first <- lift (iloc_first session_data) ;;
  short <- lift (scenario_short (scenario first)) ;;
  draw (PlotLine (0, 0)%nat (minutes session_data) (map frame_rate_fps session_data)
                 [Lit "Session "; ValZ session; Lit ": "; Lit short; Lit " (";
                  ValQ (Fin (duration_min first)); Lit "min)"]).

(** Lines 220-242. *)
Definition figure2 (g : globals) : M globals :=
  draw (Subplots 1 1) ;;
  tech <- tech_rows (g_tech_perf g) ;;
  for_each (sessions tech) (fps_line (g_tech_perf g)) ;;
  draw (Axhline (0, 0)%nat 90 "Target (90fps)") ;;
  draw (Axhline (0, 0)%nat 85 "Acceptable (85fps)") ;;
  draw (SetLabels (0, 0)%nat "Time (minutes)" "Frame Rate (fps)") ;;
  draw (SetTitle (0, 0)%nat "Frame Rate Stability Across Extended Sessions") ;;
  draw (SetYlim (0, 0)%nat 86 93) ;;
  emit (Savefig "../figures/frame_rate_stability.png") ;;
  print [Lit "  ✓ Saved: frame_rate_stability.png"] ;;
  draw Close ;;
  ret g.

(** Lines 247-253: one line of figure 3. *)
Definition calib_line (tech : ref) (session : Z) : M unit :=
  session_data <- session_frame tech session ;;
  first <- lift (iloc_first session_data) ;;
  short <- lift (scenario_short (scenario first)) ;;
  draw (PlotLine (0, 0)%nat (minutes session_data)
                 (map calibration_error_mm session_data)
                 [Lit "Session "; ValZ session; Lit ": "; Lit short]).

(** Lines 245-266. *)
Definition figure3 (g : globals) : M globals :=
  draw (Subplots 1 1) ;;
  tech <- tech_rows (g_tech_perf g) ;;
  for_each (sessions tech) (calib_line (g_tech_perf g)) ;;
  draw (Axhline (0, 0)%nat 10 "Safety Threshold (10mm)") ;;
  draw (Axhline (0, 0)%nat 4.1 "Initial Mean (4.1mm)") ;;
  draw (SetLabels (0, 0)%nat "Time (minutes)" "Calibration Error (mm)") ;;
  draw (SetTitle (0, 0)%nat "Calibration Drift During Extended Sessions") ;;
  draw (SetYlim (0, 0)%nat 6 14) ;;
  emit (Savefig "../figures/calibration_drift.png") ;;
  print [Lit "  ✓ Saved: calibration_drift.png"] ;;
  draw Close ;;
  ret g.

(** [np.polyfit(x, y, 1)] refuses an empty [x]; the fitted line itself is
    left to the plot. *)
Definition polyfit (ax : nat * nat) (xs ys : list Q) (label : text) : M unit :=
  match xs with
  | [] => raise TypeError
  | _ => draw (FitLine ax xs ys label)
  end.

(** Lines 269-300. *)
Definition figure4 (g : globals) : M globals :=
  draw (Subplots 1 2) ;;
  tech <- tech_rows (g_tech_perf g) ;;
  draw (Scatter (0, 0)%nat (map headset_temp_c tech) (map frame_rate_fps tech)
                (minutes tech)) ;;
  polyfit (0, 0)%nat (map headset_temp_c tech) (map frame_rate_fps tech)
          [Lit "r="; FmtR (g_temp_fps_corr g) 3] ;;
  draw (SetLabels (0, 0)%nat "Headset Temperature (°C)" "Frame Rate (fps)") ;;
  draw (SetTitle (0, 0)%nat "Temperature Impact on Frame Rate") ;;
  draw (Scatter (0, 1)%nat (map headset_temp_c tech) (map calibration_error_mm tech)
                (minutes tech)) ;;
  polyfit (0, 1)%nat (map headset_temp_c tech) (map calibration_error_mm tech)
          [Lit "r="; FmtR (g_temp_calib_corr g) 3] ;;
  draw (Axhline (0, 1)%nat 10 "Safety Threshold") ;;
  draw (SetLabels (0, 1)%nat "Headset Temperature (°C)" "Calibration Error (mm)") ;;
  draw (SetTitle (0, 1)%nat "Temperature Impact on Calibration") ;;
  emit (Savefig "../figures/temperature_correlation.png") ;;
  print [Lit "  ✓ Saved: temperature_correlation.png"] ;;
  draw Close ;;
  ret g.

(** Lines 306-330. *)
Definition summary (g : globals) : M globals :=
  banner "Summary: Achievement vs Evidence-Based Benchmarks" ;;
  tech <- tech_rows (g_tech_perf g) ;;
  let d := summary_data (g_initial_calib g) tech (g_p_value g) in
  emit (PrintTable ["Requirement"; "Target"; "Achieved"; "Status"]%string
          (summary_rows (Requirement d) (Target d) (Achieved d) (Status d))) ;;
  banner "Analysis Complete!" ;;
  print [Lit "Generated "; DirCount "../figures"; Lit " figures in ../figures/"] ;;
  print [Lit "Ready for publication in results.tex"] ;;
  ret g.

(** The script after the load, part by part. *)
Definition stages : list (globals -> M globals) :=
  [rq1; rq2_rq3; rq4; figure1; figure2; figure3; figure4; summary].

Fixpoint run_stages (l : list (globals -> M globals)) (g : globals) : M globals :=
  match l with
  | [] => ret g
  | stage :: l' => g' <- stage g ;; run_stages l' g'
  end.

(** The whole run, from an empty heap. *)
Definition script (files : csv_files) : M globals :=
  g <- load files ;; run_stages stages g.

Definition initial_state : state :=
  {| heap := []; output := []; snapshots := [] |}.

End Script.

(** ** Reference formulas, as the specification words them *)

Definition rsum (xs : list R) : R := fold_right Rplus 0%R xs.

(** The arithmetic mean of a sample. *)
Definition rmean (xs : list R) : R := (rsum xs / INR (length xs))%R.

(** The sample variance and standard deviation ([ddof=1]). *)
Definition sample_var (xs : list R) : R :=
  (rsum (map (fun x => (x - rmean xs) * (x - rmean xs)) xs)
   / (INR (length xs) - 1))%R.

Definition sample_sd (xs : list R) : R := sqrt (sample_var xs).

(** sqrt(((n1-1) s1^2 + (n2-1) s2^2) / (n1+n2-2)) *)
Definition pooled_sd (xs ys : list R) : R :=
  sqrt (((INR (length xs) - 1) * sample_sd xs ^ 2
         + (INR (length ys) - 1) * sample_sd ys ^ 2)
        / (INR (length xs) + INR (length ys) - 2))%R.

(** Cohen's d with the pooled standard deviation. *)
Definition cohen_d_pooled (xs ys : list R) : R :=
  ((rmean xs - rmean ys) / pooled_sd xs ys)%R.

Definition qsum (xs : list Q) : Q := fold_right Qplus 0%Q xs.

Definition qmean (xs : list Q) : Q :=
  (qsum xs / inject_Z (Z.of_nat (length xs)))%Q.

(** 100 times [hits] out of [total]. *)
Definition proportion_pct (hits total : nat) : Q :=
  (100 * inject_Z (Z.of_nat hits) / inject_Z (Z.of_nat total))%Q.

(** The 0/1 value of a boolean in a numeric series. *)
Definition indicator (b : bool) : Q := if b then inject_Z (Z.of_nat 1) else 0%Q.



(** A row of the technical data for worked examples: session, time, latency
    and frame rate vary, the rest is fixed. *)
Definition tech_row (session : Z) (time latency fps calib : Q) : TechRow :=
  {| session_id := session;
     scenario := "scenario_basic";
     timestamp_sec := time;
     duration_min := 30;
     network_latency_ms := latency;
     frame_rate_fps := fps;
     calibration_error_mm := calib;
     headset_temp_c := 35 |}.

(** Five measurements, three of them at or below 75 ms. *)
Definition five_latencies : list TechRow :=
  [tech_row 1 0 70 90 4; tech_row 1 60 80 91 4; tech_row 1 120 75 89 5;
   tech_row 1 180 60 90 5; tech_row 1 240 90 92 6].

(** ** Heaps that only grow *)

(** [h'] has the objects of [h], unchanged and at the same references, and
    maybe more. *)
Definition extends (h h' : list frame) : Prop := exists t, h' = h ++ t.

(** A computation that leaves every object it finds as it is: each heap it
    goes through, and the one it ends in, extends the one it started from.
    This covers the runs that end in an exception. *)
Definition frame_safe {A : Type} (c : M A) : Prop :=
  forall st, exists new,
    snapshots (snd (c st)) = snapshots st ++ new /\
    Forall (extends (heap st)) new /\
    extends (heap st) (heap (snd (c st))).

(** The three frames as [load] leaves them, at references 0, 1 and 2. *)
Definition loaded (files : csv_files) : list frame :=
  [TechFrame (technical_performance files);
   CollabFrame (collaboration_performance files);
   CalibFrame (calibration_accuracy files)].

(** The variables as [load] leaves them. *)
Definition loaded_globals : globals :=
  {| g_tech_perf := 0%nat; g_collab_perf := 1%nat; g_calib_acc := 2%nat;
     g_initial_calib := []; g_baseline_times := []; g_wim_times := [];
     g_p_value := NaN; g_temp_fps_corr := NaN; g_temp_calib_corr := NaN |}.

(** The three frame variables of [g'] are those of [g]. *)
Definition same_frames (g g' : globals) : Prop :=
  g_tech_perf g' = g_tech_perf g /\
  g_collab_perf g' = g_collab_perf g /\
  g_calib_acc g' = g_calib_acc g.

(** Whenever [c] returns, its value satisfies [P]. *)
Definition yields {A : Type} (P : A -> Prop) (c : M A) : Prop :=
  forall st a st', c st = (Ok a, st') -> P a.


(** The collaboration frame is at [r], with these rows. *)
Definition collab_at (r : ref) (rows : list CollabRow) (st : state) : Prop :=
  nth_error (heap st) r = Some (CollabFrame rows).



(** ** What the script writes, as functions of the data *)


(** The files written by [plt.savefig], in order. *)
Definition saved (out : list event) : list String.string :=
  flat_map (fun e => match e with Savefig path => [path] | _ => [] end) out.


(** The technical frame is at [r], with these rows. *)
Definition tech_at (r : ref) (rows : list TechRow) (st : state) : Prop :=
  nth_error (heap st) r = Some (TechFrame rows).





(** Started in a state that satisfies [P], [c] raises [e] and leaves a state
    that satisfies [Q]. *)
Definition raises {A : Type} (P : state -> Prop) (c : M A) (e : exn)
    (Q : state -> Prop) : Prop :=
  forall st, P st -> exists st', c st = (Raise e, st') /\ Q st'.

(** The loaded frames are in place and [l] is what was saved so far. *)
Definition inv (files : csv_files) (l : list String.string) (st : state) : Prop :=
  extends (loaded files) (heap st) /\ saved (output st) = l.


(** The rows whose interface is baseline or wim. *)
Definition tested_rows (collab : list CollabRow) : list CollabRow :=
  filter (fun r => String.eqb (interface_type r) "baseline"
                   || String.eqb (interface_type r) "wim") collab.

(** The calibration frame is at [r], with these rows. *)
Definition calib_at (r : ref) (rows : list CalibRow) (st : state) : Prop :=
  nth_error (heap st) r = Some (CalibFrame rows).

(** The variables of [g] refer to the three frames of [files]. *)
Definition frames_at (files : csv_files) (g : globals) (st : state) : Prop :=
  tech_at (g_tech_perf g) (technical_performance files) st /\
  collab_at (g_collab_perf g) (collaboration_performance files) st /\
  calib_at (g_calib_acc g) (calibration_accuracy files) st.






(** A sample measured in another unit: every value times [a], plus [c]. *)
Definition rescale (a c : R) (xs : list R) : list R :=
  map (fun x => (a * x + c)%R) xs.

(** * Proofs *)

(** ** Arithmetic *)

Lemma Rcompare_zero : Rcompare 0 0 = Eq.
Proof.
  destruct (Rcompare_spec 0 0); auto; lra.
Qed.

Lemma Rcompare_opp (a : R) : Rcompare (- a) 0 = CompOpp (Rcompare a 0).
Proof.
  destruct (Rcompare_spec a 0), (Rcompare_spec (- a) 0); simpl; auto; lra.
Qed.

Lemma xdiv_fin_R (a b : R) : b <> 0%R -> xdiv (Fin a) (Fin b) = Fin (a / b)%R.
Proof.
  intros Hb. unfold xdiv, sgn. simpl.
  destruct (Rcompare_spec b 0); auto; contradiction.
Qed.

Lemma xsqrt_fin (a : R) : (0 <= a)%R -> xsqrt (Fin a) = Fin (sqrt a).
Proof.
  intros Ha. unfold xsqrt.
  destruct (Rcompare_spec a 0); auto; lra.
Qed.

Lemma xint_sub_R (n k : nat) : @xint_sub R _ n k = Fin (INR n - INR k)%R.
Proof.
  unfold xint_sub. destruct (Nat.leb_spec k n); simpl; f_equal.
  - now apply minus_INR.
  - rewrite minus_INR by lia. lra.
Qed.

Lemma mean_fin (xs : list R) : xs <> [] -> mean xs = Fin (rmean xs).
Proof.
  destruct xs as [|x xs]; [congruence|]. intros _.
  unfold mean, xnat. rewrite xdiv_fin_R; [reflexivity|].
  apply (not_0_INR (length (x :: xs))). simpl. lia.
Qed.

Lemma combine_diag {A : Type} (xs : list A) :
  combine xs xs = map (fun x => (x, x)) xs.
Proof.
  induction xs; simpl; congruence.
Qed.

Lemma dev_products_diag (m : R) (xs : list R) :
  dev_products m m xs xs = rsum (map (fun x => (x - m) * (x - m))%R xs).
Proof.
  unfold dev_products. rewrite combine_diag, map_map. reflexivity.
Qed.

Lemma rsum_squares_nonneg (m : R) (xs : list R) :
  (0 <= rsum (map (fun x => (x - m) * (x - m)) xs))%R.
Proof.
  induction xs as [|x xs IH]; simpl; [lra|].
  pose proof (Rle_0_sqr (x - m)) as Hs. unfold Rsqr in Hs. lra.
Qed.

Lemma var_fin (xs : list R) :
  (2 <= length xs)%nat -> var xs = Fin (sample_var xs).
Proof.
  intros Hn. unfold var.
  destruct (Nat.leb_spec (length xs) 1); [lia|].
  rewrite mean_fin by (destruct xs; simpl in *; [lia|congruence]).
  rewrite xint_sub_R, dev_products_diag.
  rewrite xdiv_fin_R; [reflexivity|].
  assert (2 <= INR (length xs))%R by (apply (le_INR 2); lia).
  simpl. lra.
Qed.

Lemma sample_var_nonneg (xs : list R) :
  (2 <= length xs)%nat -> (0 <= sample_var xs)%R.
Proof.
  intros Hn. unfold sample_var.
  assert (2 <= INR (length xs))%R by (apply (le_INR 2); lia).
  apply Rmult_le_pos; [apply rsum_squares_nonneg|].
  left. apply Rinv_0_lt_compat. lra.
Qed.

Lemma std_fin (xs : list R) :
  (2 <= length xs)%nat -> std xs = Fin (sample_sd xs).
Proof.
  intros Hn. unfold std. rewrite var_fin by assumption.
  apply xsqrt_fin. now apply sample_var_nonneg.
Qed.

Lemma sample_sd_sqr (xs : list R) :
  (2 <= length xs)%nat -> (sample_sd xs ^ 2 = sample_var xs)%R.
Proof.
  intros Hn. unfold sample_sd. simpl. rewrite Rmult_1_r.
  apply sqrt_sqrt. now apply sample_var_nonneg.
Qed.

Lemma pooled_var_nonneg (xs ys : list R) :
  (2 <= length xs)%nat -> (2 <= length ys)%nat ->
  (0 <= ((INR (length xs) - 1) * sample_sd xs ^ 2
         + (INR (length ys) - 1) * sample_sd ys ^ 2)
        / (INR (length xs) + INR (length ys) - 2))%R.
Proof.
  intros Hx Hy.
  assert (2 <= INR (length xs))%R by (apply (le_INR 2); lia).
  assert (2 <= INR (length ys))%R by (apply (le_INR 2); lia).
  rewrite !sample_sd_sqr by assumption.
  pose proof (sample_var_nonneg xs Hx). pose proof (sample_var_nonneg ys Hy).
  apply Rmult_le_pos.
  - apply Rplus_le_le_0_compat; apply Rmult_le_pos; lra.
  - left. apply Rinv_0_lt_compat. lra.
Qed.

(** The script's effect size, step by step: every intermediate value is
    finite, and only the last division can leave the finite numbers. *)
Lemma cohens_d_unfold (b w : list R) :
  (2 <= length b)%nat -> (2 <= length w)%nat ->
  cohens_d b w = xdiv (Fin (rmean b - rmean w)%R) (Fin (pooled_sd b w)).
Proof.
  intros Hb Hw. unfold cohens_d.
  rewrite !mean_fin by (intros ->; simpl in *; lia).
  rewrite !std_fin by assumption.
  rewrite !xint_sub_R. unfold xsqr. simpl xmul. simpl xadd. simpl xsub.
  assert (2 <= INR (length b))%R by (apply (le_INR 2); lia).
  assert (2 <= INR (length w))%R by (apply (le_INR 2); lia).
  rewrite xdiv_fin_R by (rewrite plus_INR; simpl; lra).
  pose proof (pooled_var_nonneg b w Hb Hw) as Hp.
  match goal with
  | |- context [xsqrt (Fin ?v)] =>
      replace v with (((INR (length b) - 1) * sample_sd b ^ 2
                       + (INR (length w) - 1) * sample_sd w ^ 2)
                      / (INR (length b) + INR (length w) - 2))%R
        by (rewrite plus_INR; simpl; field; lra)
  end.
  rewrite xsqrt_fin by assumption.
  reflexivity.
Qed.

(** C1: for two samples of size at least 2, the effect size the script
    computes (line 91 for the completion times, line 99 for the coordination
    errors) is Cohen's d with the pooled standard deviation,
    (mean1 - mean2) / sqrt(((n1-1) s1^2 + (n2-1) s2^2) / (n1+n2-2)), with
    s1 and s2 the sample (ddof=1) standard deviations: the script's value
    is that quotient, finite and equal to the formula when the pooled
    standard deviation is not zero, and an infinity or NaN (the float
    division by zero) when it is. *)
Theorem cohens_d_pooled_formula (t_sf : R -> R -> R) (b w : list R) :
  (2 <= length b)%nat -> (2 <= length w)%nat ->
  snd (hypothesis_test t_sf b w)
  = xdiv (Fin (rmean b - rmean w)%R) (Fin (pooled_sd b w)) /\
  (pooled_sd b w <> 0%R ->
   snd (hypothesis_test t_sf b w) = Fin (cohen_d_pooled b w)) /\
  (pooled_sd b w = 0%R ->
   forall r, snd (hypothesis_test t_sf b w) <> Fin r).
Proof.
  intros Hb Hw. unfold hypothesis_test. simpl snd.
  rewrite cohens_d_unfold by assumption.
  split; [reflexivity|split].
  - intros Hp. now rewrite xdiv_fin_R.
  - intros Hp r. rewrite Hp. unfold xdiv, sgn. simpl.
    rewrite Rcompare_zero.
    destruct (Rcompare _ 0); discriminate.
Qed.

Lemma cohens_d_pooled_formula_witness :
  snd (hypothesis_test (fun _ _ => 0%R) [1; 2]%R [3; 5]%R)
  = xdiv (Fin (rmean [1; 2] - rmean [3; 5])%R) (Fin (pooled_sd [1; 2] [3; 5])%R).
Proof.
  apply (cohens_d_pooled_formula (fun _ _ => 0%R) [1; 2]%R [3; 5]%R);
    simpl; lia.
Defined.

(** ** Swapping the two samples *)

Lemma xadd_comm_R (x y : xR) : xadd x y = xadd y x.
Proof.
  destruct x, y; simpl; try reflexivity. f_equal. apply Rplus_comm.
Qed.

Lemma xsub_swap_R (x y : xR) : xsub x y = xopp (xsub y x).
Proof.
  destruct x, y; simpl; try reflexivity. f_equal. lra.
Qed.

Lemma xdiv_opp_R (x y : xR) : xdiv (xopp x) y = xopp (xdiv x y).
Proof.
  destruct x as [a| | |], y as [b| | |]; simpl; try reflexivity.
  - unfold sgn. simpl. rewrite Rcompare_opp.
    destruct (Rcompare b 0); simpl.
    + destruct (Rcompare a 0); reflexivity.
    + f_equal. lra.
    + f_equal. lra.
  - f_equal. lra.
  - f_equal. lra.
  - unfold sgn. simpl. destruct (Rcompare b 0); reflexivity.
  - unfold sgn. simpl. destruct (Rcompare b 0); reflexivity.
Qed.

Lemma xabs_opp_R (x : xR) : xabs (xopp x) = xabs x.
Proof.
  destruct x as [a| | |]; simpl; try reflexivity.
  unfold sgn. simpl. rewrite Rcompare_opp.
  destruct (Rcompare_spec a 0); simpl; f_equal; lra.
Qed.

Lemma two_sided_p_opp (t_sf : R -> R -> R) (t df : xR) :
  two_sided_p t_sf (xopp t) df = two_sided_p t_sf t df.
Proof.
  unfold two_sided_p. now rewrite xabs_opp_R.
Qed.

Lemma ttest_ind_swap (t_sf : R -> R -> R) (a b : list R) :
  ttest_ind t_sf b a
  = (xopp (fst (ttest_ind t_sf a b)), snd (ttest_ind t_sf a b)).
Proof.
  unfold ttest_ind. simpl fst. simpl snd.
  rewrite (Nat.add_comm (length b) (length a)).
  rewrite (xadd_comm_R (xmul (xint_sub (length b) 1) (var b))).
  rewrite (xadd_comm_R (xdiv (xnat 1) (xnat (length b)))).
  rewrite (xsub_swap_R (mean b) (mean a)), xdiv_opp_R.
  now rewrite two_sided_p_opp.
Qed.

Lemma cohens_d_swap (b w : list R) : cohens_d w b = xopp (cohens_d b w).
Proof.
  unfold cohens_d.
  rewrite (Nat.add_comm (length w) (length b)).
  rewrite (xadd_comm_R (xmul (xint_sub (length w) 1) (xsqr (std w)))).
  now rewrite (xsub_swap_R (mean w) (mean b)), xdiv_opp_R.
Qed.

(** C7: for two samples of size at least 2, exchanging the baseline and the
    wim sample negates the t statistic and Cohen's d, leaves their
    magnitudes and the p-value as they were, and the same input gives the
    same output. *)
Theorem hypothesis_test_swap (t_sf : R -> R -> R) (b w : list R) :
  (2 <= length b)%nat -> (2 <= length w)%nat ->
  let t := fst (fst (hypothesis_test t_sf b w)) in
  let p := snd (fst (hypothesis_test t_sf b w)) in
  let d := snd (hypothesis_test t_sf b w) in
  hypothesis_test t_sf w b = (xopp t, p, xopp d) /\
  xabs (fst (fst (hypothesis_test t_sf w b))) = xabs t /\
  xabs (snd (hypothesis_test t_sf w b)) = xabs d /\
  (forall b' w', b' = b -> w' = w ->
     hypothesis_test t_sf b' w' = hypothesis_test t_sf b w).
Proof.
  intros _ _ t p d.
  assert (E : hypothesis_test t_sf w b = (xopp t, p, xopp d)).
  { unfold t, p, d, hypothesis_test.
    now rewrite (ttest_ind_swap t_sf b w), (cohens_d_swap b w). }
  split; [exact E|]. rewrite E. cbn [fst snd].
  split; [apply xabs_opp_R|].
  split; [apply xabs_opp_R|].
  intros b' w' -> ->. reflexivity.
Qed.

Lemma hypothesis_test_swap_witness :
  hypothesis_test (fun _ _ => 0%R) [3; 5]%R [1; 2]%R
  = (xopp (fst (fst (hypothesis_test (fun _ _ => 0%R) [1; 2]%R [3; 5]%R))),
     snd (fst (hypothesis_test (fun _ _ => 0%R) [1; 2]%R [3; 5]%R)),
     xopp (snd (hypothesis_test (fun _ _ => 0%R) [1; 2]%R [3; 5]%R))).
Proof.
  apply (hypothesis_test_swap (fun _ _ => 0%R) [1; 2]%R [3; 5]%R);
    simpl; lia.
Defined.

(** ** Pearson's r *)











(** ** Rational statistics *)

Lemma Qcompare_nat_pos (n : nat) :
  (0 < n)%nat -> Qcompare (inject_Z (Z.of_nat n)) 0 = Gt.
Proof.
  intros Hn. apply Qgt_alt. unfold Qlt. simpl. lia.
Qed.

Lemma mean_fin_Q (xs : list Q) : xs <> [] -> mean xs = Fin (qmean xs).
Proof.
  destruct xs as [|x xs]; [congruence|]. intros _.
  unfold mean, xnat, xdiv, sgn.
  change (ccmp (cnat (length (x :: xs))) czero)
    with (Qcompare (inject_Z (Z.of_nat (length (x :: xs)))) 0).
  rewrite Qcompare_nat_pos by (simpl; lia). reflexivity.
Qed.

Lemma qsum_indicator (bs : list bool) :
  qsum (map indicator bs) == inject_Z (Z.of_nat (length (filter (fun b => b) bs))).
Proof.
  induction bs as [|[|] bs IH]; simpl; try reflexivity.
  - rewrite IH. rewrite Zpos_P_of_succ_nat. unfold Z.succ.
    rewrite inject_Z_plus. unfold indicator. simpl. ring.
  - rewrite IH. unfold indicator. ring.
Qed.

Lemma filter_map_length {A : Type} (p : A -> bool) (l : list A) :
  length (filter (fun b => b) (map p l)) = length (filter p l).
Proof.
  induction l as [|x l IH]; simpl; [reflexivity|].
  destruct (p x); simpl; congruence.
Qed.

(** The share of the rows that satisfy [p], times 100. *)
Lemma share_times_100 {Row : Type} (p : Row -> bool) (rows : list Row) :
  rows <> [] ->
  exists a, xmul (bool_mean (map p rows)) (Fin 100%Q) = Fin a /\
            a == proportion_pct (length (filter p rows)) (length rows).
Proof.
  intros Hne. unfold bool_mean.
  rewrite mean_fin_Q by (destruct rows; simpl; congruence).
  eexists. split; [reflexivity|].
  unfold qmean, proportion_pct.
  change (map (fun b : bool => if b then cnat 1 else czero) (map p rows))
    with (map indicator (map p rows)).
  rewrite qsum_indicator, filter_map_length, !length_map.
  change (@cmul Q CarrierQ) with Qmult.
  field. destruct rows; [congruence|].
  unfold inject_Z, Qeq. simpl. lia.
Qed.



(** C6: for non-empty samples with a non-zero baseline mean the percentage
    improvement of line 93 is (mean(baseline) - mean(wim)) / mean(baseline)
    * 100; for baseline = [100, 110, 120] and wim = [80, 85, 90] it is
    (110 - 85) / 110 * 100. *)
Theorem improvement_pct_formula :
  (forall b w : list Q,
     b <> [] -> w <> [] -> ~ qmean b == 0 ->
     improvement_pct b w = Fin ((qmean b - qmean w) / qmean b * 100)) /\
  (exists r, improvement_pct [100; 110; 120] [80; 85; 90] = Fin r /\
             r == (110 - 85) / 110 * 100).
Proof.
  split.
  - intros b w Hb Hw Hm. unfold improvement_pct.
    rewrite !mean_fin_Q by assumption.
    unfold xsub, xopp, xadd, xdiv, sgn.
    change (ccmp (qmean b) czero) with (Qcompare (qmean b) 0).
    destruct (Qcompare_spec (qmean b) 0) as [E|L|G];
      [contradiction|reflexivity|reflexivity].
  - eexists. split; [vm_compute; reflexivity|reflexivity].
Qed.

Lemma improvement_pct_formula_witness :
  improvement_pct [100; 110; 120] [80; 85; 90]
  = Fin ((qmean [100; 110; 120] - qmean [80; 85; 90]) / qmean [100; 110; 120] * 100).
Proof.
  apply (proj1 improvement_pct_formula); vm_compute; discriminate.
Defined.

(** ** Sorting *)

Section SortProofs.
Variable A : Type.
Variable leb : A -> A -> bool.
Hypothesis leb_total : forall x y, leb x y = true \/ leb y x = true.
Hypothesis leb_trans : forall x y z, leb x y = true -> leb y z = true -> leb x z = true.

Lemma insert_sorted_perm (x : A) (l : list A) :
  Permutation (insert_sorted leb x l) (x :: l).
Proof.
  induction l as [|y l IH]; simpl; [reflexivity|].
  destruct (leb x y); [reflexivity|].
  rewrite IH. apply perm_swap.
Qed.

Lemma sort_by_perm (l : list A) : Permutation (sort_by leb l) l.
Proof.
  induction l as [|x l IH]; simpl; [reflexivity|].
  rewrite insert_sorted_perm. now constructor.
Qed.

Lemma insert_sorted_forall (P : A -> Prop) (x : A) (l : list A) :
  P x -> Forall P l -> Forall P (insert_sorted leb x l).
Proof.
  intros Hx Hl. eapply Permutation_Forall.
  - symmetry. apply insert_sorted_perm.
  - now constructor.
Qed.

Lemma insert_sorted_sorted (x : A) (l : list A) :
  StronglySorted (fun x y => leb x y = true) l -> StronglySorted (fun x y => leb x y = true) (insert_sorted leb x l).
Proof.
  induction 1 as [|y l Hs IH Hy]; simpl.
  - repeat constructor.
  - destruct (leb x y) eqn:E.
    + constructor; [now constructor|].
      constructor; [exact E|].
      eapply Forall_impl; [|exact Hy]. intros z Hz. eapply leb_trans; eauto.
    + constructor; [exact IH|].
      apply insert_sorted_forall; [|exact Hy].
      destruct (leb_total x y) as [H|H]; [congruence|exact H].
Qed.

Lemma sort_by_sorted (l : list A) : StronglySorted (fun x y => leb x y = true) (sort_by leb l).
Proof.
  induction l as [|x l IH]; simpl; [constructor|].
  now apply insert_sorted_sorted.
Qed.



End SortProofs.


Lemma timestamp_leb_total (x y : TechRow) :
  Qle_bool (timestamp_sec x) (timestamp_sec y) = true \/
  Qle_bool (timestamp_sec y) (timestamp_sec x) = true.
Proof.
  rewrite !Qle_bool_iff.
  destruct (Qlt_le_dec (timestamp_sec x) (timestamp_sec y)) as [H|H]; auto.
  left. now apply Qlt_le_weak.
Qed.

Lemma timestamp_leb_trans (x y z : TechRow) :
  Qle_bool (timestamp_sec x) (timestamp_sec y) = true ->
  Qle_bool (timestamp_sec y) (timestamp_sec z) = true ->
  Qle_bool (timestamp_sec x) (timestamp_sec z) = true.
Proof.
  rewrite !Qle_bool_iff. apply Qle_trans.
Qed.

Lemma by_session_in (s : Z) (tech : list TechRow) (r : TechRow) :
  In r (by_session s tech) <-> In r tech /\ session_id r = s.
Proof.
  unfold by_session. rewrite filter_In, Z.eqb_eq. tauto.
Qed.



(** C4: for a session of exactly one row the frame-rate drift and the
    calibration drift are exactly 0 and the latency jitter, the standard
    deviation of one value, is NaN. *)
Theorem single_row_session (tech : list TechRow) (s : Z) (r : TechRow) :
  by_session s tech = [r] ->
  exists rep,
    session_report tech s = Ok rep /\
    (fps_drift rep == 0)%Q /\
    (calib_drift rep == 0)%Q /\
    latency_jitter rep = NaN.
Proof.
  intros Hone. unfold session_report. rewrite Hone. simpl.
  eexists. split; [reflexivity|]. simpl.
  split; [ring|]. split; [ring|].
  reflexivity.
Qed.

Lemma single_row_session_witness :
  exists rep,
    session_report [tech_row 7 0 30 90 4] 7 = Ok rep /\
    (fps_drift rep == 0)%Q /\
    (calib_drift rep == 0)%Q /\
    latency_jitter rep = NaN.
Proof.
  apply (@single_row_session [tech_row 7 0 30 90 4] 7%Z (tech_row 7 0 30 90 4)).
  reflexivity.
Defined.

(** ** The frames are only read *)

Lemma extends_refl (h : list frame) : extends h h.
Proof. exists []. now rewrite app_nil_r. Qed.

Lemma extends_trans (h1 h2 h3 : list frame) :
  extends h1 h2 -> extends h2 h3 -> extends h1 h3.
Proof.
  intros [t1 ->] [t2 ->]. exists (t1 ++ t2). now rewrite app_assoc.
Qed.

Lemma extends_firstn (h h' : list frame) :
  extends h h' -> firstn (length h) h' = h.
Proof.
  intros [t ->]. rewrite firstn_app, Nat.sub_diag, firstn_all. simpl.
  apply app_nil_r.
Qed.

Create HintDb frame.

Lemma safe_ret {A : Type} (a : A) : frame_safe (ret a).
Proof.
  intros st. exists []. simpl. rewrite app_nil_r.
  repeat split; [constructor|apply extends_refl].
Qed.

Lemma safe_raise {A : Type} (e : exn) : frame_safe (@raise A e).
Proof.
  intros st. exists []. simpl. rewrite app_nil_r.
  repeat split; [constructor|apply extends_refl].
Qed.

Lemma safe_lift {A : Type} (o : outcome A) : frame_safe (lift o).
Proof.
  intros st. exists []. simpl. rewrite app_nil_r.
  repeat split; [constructor|apply extends_refl].
Qed.

Lemma safe_emit (e : event) : frame_safe (emit e).
Proof.
  intros st. exists []. simpl. rewrite app_nil_r.
  repeat split; [constructor|apply extends_refl].
Qed.

Lemma safe_alloc (f : frame) : frame_safe (alloc f).
Proof.
  intros st. exists [heap st ++ [f]]. simpl.
  repeat split; [repeat constructor|]; now exists [f].
Qed.

Lemma safe_deref (r : ref) : frame_safe (deref r).
Proof.
  intros st. exists []. unfold deref.
  destruct (nth_error (heap st) r); simpl; rewrite app_nil_r;
    repeat split; try constructor; apply extends_refl.
Qed.

Lemma safe_bind {A B : Type} (c : M A) (k : A -> M B) :
  frame_safe c -> (forall a, frame_safe (k a)) -> frame_safe (bind c k).
Proof.
  intros Hc Hk st. unfold bind.
  destruct (Hc st) as (new1 & Hs1 & Hf1 & He1).
  destruct (c st) as [[a|e] st1]; simpl in *.
  - destruct (Hk a st1) as (new2 & Hs2 & Hf2 & He2).
    exists (new1 ++ new2). rewrite Hs2, Hs1, app_assoc.
    repeat split.
    + apply Forall_app. split; [exact Hf1|].
      eapply Forall_impl; [|exact Hf2].
      intros h Hh. eapply extends_trans; eauto.
    + eapply extends_trans; eauto.
  - exists new1. auto.
Qed.

Lemma safe_for_each {A : Type} (l : list A) (body : A -> M unit) :
  (forall x, frame_safe (body x)) -> frame_safe (for_each l body).
Proof.
  intros Hb. induction l as [|x l IH]; simpl.
  - apply safe_ret.
  - apply safe_bind; auto.
Qed.

#[local] Hint Resolve safe_ret safe_raise safe_lift safe_emit safe_alloc
  safe_deref : frame.

(** One step through a computation: a known operation, a sequence, a loop
    or a case distinction. *)
Ltac frame_step :=
  first
    [ solve [auto with frame]
    | apply safe_bind; [|intros]
    | apply safe_for_each; intros
    | match goal with
      | |- frame_safe (match ?x with _ => _ end) => destruct x
      end ].

Ltac frame := repeat frame_step.

Lemma safe_print (t : text) : frame_safe (print t).
Proof. apply safe_emit. Qed.

Lemma safe_draw (c : draw_cmd) : frame_safe (draw c).
Proof. apply safe_emit. Qed.

Lemma safe_tech_rows (r : ref) : frame_safe (tech_rows r).
Proof. unfold tech_rows. frame. Qed.

Lemma safe_collab_rows (r : ref) : frame_safe (collab_rows r).
Proof. unfold collab_rows. frame. Qed.

Lemma safe_calib_rows (r : ref) : frame_safe (calib_rows r).
Proof. unfold calib_rows. frame. Qed.

#[local] Hint Resolve safe_print safe_draw safe_tech_rows safe_collab_rows
  safe_calib_rows : frame.

Lemma safe_banner (heading : String.string) : frame_safe (banner heading).
Proof. unfold banner. frame. Qed.

#[local] Hint Resolve safe_banner : frame.

Lemma safe_tech_where (r : ref) (mask : TechRow -> bool) :
  frame_safe (tech_where r mask).
Proof. unfold tech_where. frame. Qed.

Lemma safe_collab_where (r : ref) (mask : CollabRow -> bool) :
  frame_safe (collab_where r mask).
Proof. unfold collab_where. frame. Qed.

Lemma safe_calib_where (r : ref) (mask : CalibRow -> bool) :
  frame_safe (calib_where r mask).
Proof. unfold calib_where. frame. Qed.

(** Sorting into a new frame is safe. *)
Lemma safe_sort_values_copy (key : TechRow -> Q) (r : ref) :
  frame_safe (tech_sort_values false key r).
Proof. unfold tech_sort_values. frame. Qed.

Lemma safe_not_none {A : Type} (o : option A) : frame_safe (not_none o).
Proof. unfold not_none. frame. Qed.

#[local] Hint Resolve safe_tech_where safe_collab_where safe_calib_where
  safe_sort_values_copy safe_not_none : frame.

(** Sorting in place is not: the model can tell the two apart. *)
Lemma sort_values_inplace_mutates :
  ~ frame_safe (tech_sort_values true timestamp_sec 0%nat).
Proof.
  intros H.
  destruct (H {| heap := [TechFrame [tech_row 1 60 80 91 4; tech_row 1 0 70 90 4]];
                 output := []; snapshots := [] |}) as (new & _ & _ & [t Ht]).
  vm_compute in Ht. discriminate.
Qed.

Section ScriptProofs.

Variable t_sf : R -> R -> R.

Lemma safe_compare_measure (what gain : String.string) (b w : list Q) :
  frame_safe (compare_measure t_sf what gain b w).
Proof. unfold compare_measure. frame. Qed.

Lemma safe_collab_column (r : ref) (label : String.string) (col : CollabRow -> Q) :
  frame_safe (collab_column r label col).
Proof. unfold collab_column. frame. Qed.

Lemma safe_session_frame (r : ref) (session : Z) :
  frame_safe (session_frame r session).
Proof. unfold session_frame. frame. Qed.

Hint Resolve safe_compare_measure safe_collab_column safe_session_frame : frame.

Lemma safe_load (files : csv_files) : frame_safe (load files).
Proof. unfold load. frame. Qed.

Lemma safe_rq1 (g : globals) : frame_safe (rq1 g).
Proof. unfold rq1. frame. Qed.

Lemma safe_rq2_rq3 (g : globals) : frame_safe (rq2_rq3 t_sf g).
Proof. unfold rq2_rq3. frame. Qed.

Lemma safe_drift_turn (r : ref) (session : Z) : frame_safe (drift_turn r session).
Proof. unfold drift_turn. frame. Qed.

Hint Resolve safe_drift_turn : frame.

Lemma safe_rq4 (g : globals) : frame_safe (rq4 g).
Proof. unfold rq4. frame. Qed.

Lemma safe_figure1 (g : globals) : frame_safe (figure1 g).
Proof. unfold figure1, latency_panel, bar_label. frame. Qed.

Lemma safe_figure2 (g : globals) : frame_safe (figure2 g).
Proof. unfold figure2, fps_line. frame. Qed.

Lemma safe_figure3 (g : globals) : frame_safe (figure3 g).
Proof. unfold figure3, calib_line. frame. Qed.

Lemma safe_figure4 (g : globals) : frame_safe (figure4 g).
Proof. unfold figure4, polyfit. frame. Qed.

Lemma safe_summary (g : globals) : frame_safe (summary g).
Proof. unfold summary. frame. Qed.

Lemma safe_stages :
  Forall (fun stage => forall g, frame_safe (stage g)) (stages t_sf).
Proof.
  unfold stages.
  repeat constructor; intros g;
    auto using safe_rq1, safe_rq2_rq3, safe_rq4, safe_figure1, safe_figure2,
      safe_figure3, safe_figure4, safe_summary.
Qed.

Lemma safe_run_stages (l : list (globals -> M globals)) :
  Forall (fun stage => forall g, frame_safe (stage g)) l ->
  forall g, frame_safe (run_stages l g).
Proof.
  induction 1 as [|stage l Hs _ IH]; intros g; simpl.
  - apply safe_ret.
  - apply safe_bind; auto.
Qed.

End ScriptProofs.

(** ** The frame variables are never rebound *)

Lemma yields_ret {A : Type} (P : A -> Prop) (a : A) : P a -> yields P (ret a).
Proof.
  intros Ha st a' st' E. injection E as <- _. exact Ha.
Qed.

Lemma yields_bind {A B : Type} (P : A -> Prop) (Q : B -> Prop)
    (c : M A) (k : A -> M B) :
  yields P c -> (forall a, P a -> yields Q (k a)) -> yields Q (bind c k).
Proof.
  intros Hc Hk st b st' E. unfold bind in E.
  destruct (c st) as [[a|e] st1] eqn:Ec; [|discriminate].
  eapply Hk; [|exact E]. eapply Hc. exact Ec.
Qed.

Lemma yields_any {A : Type} (c : M A) : yields (fun _ => True) c.
Proof. intros st a st' _. exact I. Qed.

Lemma yields_seq {A B : Type} (Q : B -> Prop) (c : M A) (k : A -> M B) :
  (forall a, yields Q (k a)) -> yields Q (bind c k).
Proof.
  intros Hk. eapply yields_bind; [apply yields_any|]. intros a _. apply Hk.
Qed.

Lemma same_frames_refl (g : globals) : same_frames g g.
Proof. repeat split. Qed.

Lemma same_frames_trans (g1 g2 g3 : globals) :
  same_frames g1 g2 -> same_frames g2 g3 -> same_frames g1 g3.
Proof.
  unfold same_frames. intros (-> & -> & ->) (-> & -> & ->). repeat split.
Qed.

(** A stage ends by returning its globals with the three frame variables
    as they were. *)
Ltac keeps_frames :=
  repeat (apply yields_seq; intros);
  apply yields_ret; repeat split.

Section FrameVariables.

Variable t_sf : R -> R -> R.

Lemma stages_keep_frames :
  Forall (fun stage => forall g, yields (same_frames g) (stage g)) (stages t_sf).
Proof.
  unfold stages. repeat (apply Forall_cons; [intros g|]); [..|apply Forall_nil].
  - unfold rq1. keeps_frames.
  - unfold rq2_rq3. keeps_frames.
  - unfold rq4. keeps_frames.
  - unfold figure1. keeps_frames.
  - unfold figure2. keeps_frames.
  - unfold figure3. keeps_frames.
  - unfold figure4. keeps_frames.
  - unfold summary. keeps_frames.
Qed.

Lemma run_stages_keep_frames (l : list (globals -> M globals)) :
  Forall (fun stage => forall g, yields (same_frames g) (stage g)) l ->
  forall g, yields (same_frames g) (run_stages l g).
Proof.
  induction 1 as [|stage l Hs _ IH]; intros g; simpl.
  - apply yields_ret, same_frames_refl.
  - eapply yields_bind; [apply Hs|].
    intros g1 H1 st g2 st' E.
    eapply same_frames_trans; [exact H1|]. eapply IH. exact E.
Qed.

End FrameVariables.

Lemma Forall_firstn {A : Type} (P : A -> Prop) (k : nat) (l : list A) :
  Forall P l -> Forall P (firstn k l).
Proof.
  intros H. rewrite <- (firstn_skipn k l) in H.
  now apply Forall_app in H.
Qed.

(** C9: after the three data sets are loaded, nothing the script does
    (grouped statistics, t-tests, the drift loop with its [sort_values], the
    correlations, the figures, the summary table) changes a loaded frame:
    [load] puts the three frames at references 0, 1 and 2; after any number
    of the following parts of the script, whether they returned or raised,
    every heap the run went through and the heap it ended in still hold the
    three frames as loaded, all other objects being new ones, and the three
    frame variables still refer to them. *)
Theorem frames_read_only (t_sf : R -> R -> R) (files : csv_files) :
  exists st0,
    load files initial_state = (Ok loaded_globals, st0) /\
    heap st0 = loaded files /\
    script t_sf files initial_state = run_stages (stages t_sf) loaded_globals st0 /\
    forall k : nat,
      exists later,
        snapshots (snd (run_stages (firstn k (stages t_sf)) loaded_globals st0))
        = snapshots st0 ++ later /\
        Forall (fun h => firstn 3 h = loaded files)
               (later ++ [heap (snd (run_stages (firstn k (stages t_sf))
                                                loaded_globals st0))]) /\
        match fst (run_stages (firstn k (stages t_sf)) loaded_globals st0) with
        | Ok g => same_frames loaded_globals g
        | Raise _ => True
        end.
Proof.
  eexists. split; [reflexivity|].
  split; [reflexivity|]. split; [reflexivity|].
  intros k.
  match goal with
  | |- context [run_stages _ _ ?st] => set (st0 := st)
  end.
  pose proof (Forall_firstn k (safe_stages t_sf)) as Hsafe.
  pose proof (Forall_firstn k (stages_keep_frames t_sf)) as Hkeep.
  destruct (safe_run_stages Hsafe loaded_globals st0) as (later & Hs & Hf & He).
  exists later. split; [exact Hs|]. split.
  - apply Forall_app. split.
    + eapply Forall_impl; [|exact Hf].
      intros h Hh. apply (extends_firstn Hh).
    + constructor; [|constructor]. apply (extends_firstn He).
  - destruct (run_stages (firstn k (stages t_sf)) loaded_globals st0)
      as [[g|e] st'] eqn:E; simpl; [|exact I].
    apply (run_stages_keep_frames Hkeep loaded_globals _ E).
Qed.

(** ** Samples too small for a variance *)

Lemma var_small (xs : list R) : (length xs < 2)%nat -> var xs = NaN.
Proof.
  intros Hn. unfold var. destruct (Nat.leb_spec (length xs) 1); [reflexivity|lia].
Qed.










(** ** Runs that do not raise *)





Section CollabRuns.

Variable t_sf : R -> R -> R.
Variable r : ref.
Variable rows : list CollabRow.






End CollabRuns.






(** ** The summary table *)

(** C10: whatever the data, the Status column of the summary table is
    "✓ PASS" in all five rows: it does not depend on the statistics, and
    the targets are not compared with the achieved values (the verdicts are
    the same for data that miss every target). *)
Theorem summary_status_constant (initial_calib : list Q) (tech : list TechRow)
    (p_value : xR) :
  Status (summary_data initial_calib tech p_value)
  = ["✓ PASS"; "✓ PASS"; "✓ PASS"; "✓ PASS"; "✓ PASS"]%string /\
  (let d := summary_data initial_calib tech p_value in
   map (fun row => last row (Lit String.EmptyString))
       (summary_rows (Requirement d) (Target d) (Achieved d) (Status d))
   = [Lit "✓ PASS"; Lit "✓ PASS"; Lit "✓ PASS"; Lit "✓ PASS"; Lit "✓ PASS"]) /\
  Status (summary_data initial_calib tech p_value)
  = Status (summary_data [50] [tech_row 1 0 500 10 40] (Fin 0.9%R)).
Proof.
  repeat split.
Qed.

(** * More of the script *)

(** ** The sessions the loops visit *)

Lemma in_unique_by_Z (x : Z) (l : list Z) : In x (unique_by Z.eqb l) <-> In x l.
Proof.
  induction l as [|y l IH]; simpl; [tauto|].
  rewrite filter_In, IH, negb_true_iff, Z.eqb_neq. split.
  - intros [->|[H _]]; auto.
  - intros [->|H]; auto. destruct (Z.eq_dec y x); auto.
Qed.

Lemma nodup_unique_by_Z (l : list Z) : NoDup (unique_by Z.eqb l).
Proof.
  induction l as [|y l IH]; simpl; constructor.
  - rewrite filter_In, negb_true_iff, Z.eqb_neq. intros [_ H]. congruence.
  - now apply NoDup_filter.
Qed.

Lemma Zleb_total (x y : Z) : Z.leb x y = true \/ Z.leb y x = true.
Proof. rewrite !Z.leb_le. lia. Qed.

Lemma Zleb_trans (x y z : Z) :
  Z.leb x y = true -> Z.leb y z = true -> Z.leb x z = true.
Proof. rewrite !Z.leb_le. lia. Qed.

Lemma sessions_in (tech : list TechRow) (s : Z) :
  In s (sessions tech) <-> exists r, In r tech /\ session_id r = s.
Proof.
  unfold sessions. split.
  - intros H. apply (Permutation_in _ (sort_by_perm Z.leb _)) in H.
    apply in_unique_by_Z, in_map_iff in H. destruct H as (r & <- & Hr). eauto.
  - intros (r & Hr & <-).
    apply (Permutation_in _ (Permutation_sym (sort_by_perm Z.leb _))).
    apply in_unique_by_Z, in_map. exact Hr.
Qed.

Lemma sorted_nodup_strict (l : list Z) :
  StronglySorted (fun x y => Z.leb x y = true) l -> NoDup l ->
  StronglySorted Z.lt l.
Proof.
  induction 1 as [|x l Hs IH Hall]; intros Hnd; constructor.
  - apply IH. now inversion Hnd.
  - inversion Hnd as [|? ? Hnotin _]; subst.
    rewrite Forall_forall in *. intros y Hy.
    specialize (Hall y Hy). apply Z.leb_le in Hall.
    assert (x <> y) by (intros ->; contradiction). lia.
Qed.

(** X1: the loops over [sorted(tech_perf['session_id'].unique())] visit
    exactly the session ids that occur in the data, each once, in strictly
    ascending order, and as many of them as the count line 29 prints. *)
Theorem sessions_spec (tech : list TechRow) :
  (forall s, In s (sessions tech) <-> exists r, In r tech /\ session_id r = s) /\
  StronglySorted Z.lt (sessions tech) /\
  NoDup (sessions tech) /\
  length (sessions tech) = length (unique_by Z.eqb (map session_id tech)).
Proof.
  assert (Hnd : NoDup (sessions tech)).
  { eapply Permutation_NoDup; [symmetry; apply sort_by_perm|].
    apply nodup_unique_by_Z. }
  split; [apply sessions_in|]. split; [|split; [exact Hnd|]].
  - apply sorted_nodup_strict; [|exact Hnd].
    apply (@sort_by_sorted _ _ Zleb_total Zleb_trans).
  - apply Permutation_length, sort_by_perm.
Qed.

(** ** One turn of the drift loop *)


Lemma nth_error_old {A : Type} (h t : list A) (r : nat) (x : A) :
  nth_error h r = Some x -> nth_error (h ++ t) r = Some x.
Proof.
  intros H. rewrite nth_error_app1; [exact H|].
  apply nth_error_Some. congruence.
Qed.




Lemma session_report_empty (tech : list TechRow) (s : Z) :
  (forall r, In r tech -> session_id r <> s) ->
  session_report tech s = Raise IndexError.
Proof.
  intros Hnone.
  assert (E : by_session s tech = []).
  { destruct (by_session s tech) as [|r l] eqn:E; [reflexivity|].
    assert (Hin : In r (by_session s tech)) by (rewrite E; now left).
    apply by_session_in in Hin. destruct Hin as [Hin Hs].
    now apply Hnone in Hin. }
  unfold session_report. rewrite E. reflexivity.
Qed.




(** ** The whole of RQ4 *)







(** ** Runs of the other parts *)




Lemma tech_at_extends (r : ref) (tech : list TechRow) (st st' : state) :
  tech_at r tech st -> extends (heap st) (heap st') -> tech_at r tech st'.
Proof.
  unfold tech_at. intros H [t ->]. now apply nth_error_old.
Qed.

Lemma collab_at_extends (r : ref) (rows : list CollabRow) (st st' : state) :
  collab_at r rows st -> extends (heap st) (heap st') -> collab_at r rows st'.
Proof.
  unfold collab_at. intros H [t ->]. now apply nth_error_old.
Qed.

Lemma calib_at_extends (r : ref) (rows : list CalibRow) (st st' : state) :
  calib_at r rows st -> extends (heap st) (heap st') -> calib_at r rows st'.
Proof.
  unfold calib_at. intros H [t ->]. now apply nth_error_old.
Qed.

Lemma frames_at_extends (files : csv_files) (g : globals) (st st' : state) :
  frames_at files g st -> extends (heap st) (heap st') -> frames_at files g st'.
Proof.
  intros (Ht & Hc & Hk) He. repeat split.
  - eapply tech_at_extends; eauto.
  - eapply collab_at_extends; eauto.
  - eapply calib_at_extends; eauto.
Qed.

Lemma frames_at_same (files : csv_files) (g g' : globals) (st : state) :
  frames_at files g st -> same_frames g g' -> frames_at files g' st.
Proof.
  unfold frames_at, same_frames. intros (Ht & Hc & Hk) (-> & -> & ->). auto.
Qed.














(** ** Scenario names *)





Section Stages.

Variable t_sf : R -> R -> R.
Variable files : csv_files.


















End Stages.

(** ** A whole run *)









(** ** More on the rates and the relative improvement *)

Lemma proportion_pct_bounds (hits total : nat) :
  (hits <= total)%nat -> (0 < total)%nat ->
  0 <= proportion_pct hits total /\ proportion_pct hits total <= 100.
Proof.
  intros Hle Hpos. unfold proportion_pct.
  assert (Ht : 0 < inject_Z (Z.of_nat total))
    by (rewrite <- (Zlt_Qlt 0); lia).
  assert (Hh : 0 <= inject_Z (Z.of_nat hits))
    by (rewrite <- (Zle_Qle 0); lia).
  assert (Hht : inject_Z (Z.of_nat hits) <= inject_Z (Z.of_nat total))
    by (rewrite <- Zle_Qle; lia).
  set (h := inject_Z (Z.of_nat hits)) in *.
  set (t := inject_Z (Z.of_nat total)) in *.
  clearbody h t.
  split.
  - apply Qle_shift_div_l; [exact Ht|]. lra.
  - apply Qle_shift_div_r; [exact Ht|]. lra.
Qed.

(** X6: on a non-empty data set both achievement rates of lines 46 and 54
    are finite and lie between 0 and 100. *)
Theorem achievement_rate_bounds (tech : list TechRow) :
  tech <> [] ->
  exists a b,
    latency_achievement tech = Fin a /\ 0 <= a /\ a <= 100 /\
    fps_achievement tech = Fin b /\ 0 <= b /\ b <= 100.
Proof.
  intros Hne. unfold latency_achievement, fps_achievement.
  destruct (share_times_100 (fun r => Qle_bool (network_latency_ms r) 75) Hne)
    as (a & Ha & Hqa).
  destruct (share_times_100 (fun r => Qle_bool 90 (frame_rate_fps r)) Hne)
    as (b & Hb & Hqb).
  assert (Hpos : (0 < length tech)%nat) by (destruct tech; simpl; [congruence|lia]).
  destruct (@proportion_pct_bounds
              (length (filter (fun r => Qle_bool (network_latency_ms r) 75) tech))
              (length tech) (filter_length_le _ _) Hpos) as [La Ua].
  destruct (@proportion_pct_bounds
              (length (filter (fun r => Qle_bool 90 (frame_rate_fps r)) tech))
              (length tech) (filter_length_le _ _) Hpos) as [Lb Ub].
  exists a, b.
  split; [exact Ha|]. split; [now rewrite Hqa|]. split; [now rewrite Hqa|].
  split; [exact Hb|]. split; now rewrite Hqb.
Qed.

Lemma achievement_rate_bounds_witness :
  exists a b,
    latency_achievement five_latencies = Fin a /\ 0 <= a /\ a <= 100 /\
    fps_achievement five_latencies = Fin b /\ 0 <= b /\ b <= 100.
Proof.
  apply (@achievement_rate_bounds five_latencies). discriminate.
Defined.

(** X7: when the baseline mean is zero (as with a baseline without any
    coordination error) lines 93 and 101 raise nothing: the relative
    improvement is NaN when the other mean is zero too, minus infinity when
    it is positive, plus infinity when it is negative. *)
Theorem improvement_pct_zero_baseline (b w : list Q) :
  b <> [] -> w <> [] -> qmean b == 0 ->
  improvement_pct b w
  = match Qcompare (qmean w) 0 with
    | Eq => NaN
    | Gt => NInf
    | Lt => PInf
    end.
Proof.
  intros Hb Hw Hz. unfold improvement_pct.
  rewrite !mean_fin_Q by assumption.
  unfold xsub, xopp, xadd, xdiv, sgn.
  change (ccmp (qmean b) czero) with (Qcompare (qmean b) 0).
  change (ccmp (cadd (qmean b) (copp (qmean w))) czero)
    with (Qcompare (qmean b + - qmean w) 0).
  destruct (Qcompare_spec (qmean b) 0) as [_|L|G]; try lra.
  destruct (Qcompare_spec (qmean b + - qmean w) 0),
           (Qcompare_spec (qmean w) 0); try lra; reflexivity.
Qed.

Lemma improvement_pct_zero_baseline_witness :
  improvement_pct [0; 0] [2; 1] = NInf.
Proof.
  apply (@improvement_pct_zero_baseline [0; 0] [2; 1]);
    try discriminate. reflexivity.
Defined.

(** X8: with a positive baseline mean the relative improvement is finite,
    it is positive exactly when the wim mean is below the baseline mean,
    zero exactly when the two means are equal, and at most 100 when the wim
    mean is not negative. *)
Theorem improvement_pct_sign (b w : list Q) :
  b <> [] -> w <> [] -> 0 < qmean b ->
  exists r,
    improvement_pct b w = Fin r /\
    (0 < r <-> qmean w < qmean b) /\
    (r == 0 <-> qmean w == qmean b) /\
    (0 <= qmean w -> r <= 100).
Proof.
  intros Hb Hw Hpos. unfold improvement_pct.
  rewrite !mean_fin_Q by assumption.
  unfold xsub, xopp, xadd, xdiv, sgn.
  change (ccmp (qmean b) czero) with (Qcompare (qmean b) 0).
  destruct (Qcompare_spec (qmean b) 0) as [E|L|G]; try lra.
  eexists. split; [reflexivity|].
  change (cmul (cmul (cadd (qmean b) (copp (qmean w))) (cinv (qmean b))) 100)
    with ((qmean b - qmean w) / qmean b * 100).
  set (mb := qmean b) in *. set (mw := qmean w) in *.
  assert (Hi : 0 < / mb) by now apply Qinv_lt_0_compat.
  assert (E : (mb - mw) / mb * 100 == 100 - 100 * (mw * / mb))
    by (field; lra).
  assert (E1 : mb * / mb == 1) by (field; lra).
  rewrite E. repeat split.
  - intros H. assert (mw * / mb < mb * / mb) by lra.
    apply Qmult_lt_r in H0; assumption.
  - intros H. assert (mw * / mb < mb * / mb)
      by (apply Qmult_lt_r; assumption). lra.
  - intros H. assert (Hq : mw * / mb == mb * / mb) by lra.
    apply Qmult_inj_r in Hq; [exact Hq|lra].
  - intros H. rewrite H. lra.
  - intros H. assert (0 <= mw * / mb) by (apply Qmult_le_0_compat; lra). lra.
Qed.

Lemma improvement_pct_sign_witness :
  exists r,
    improvement_pct [100; 110; 120] [80; 85; 90] = Fin r /\
    (0 < r <-> qmean [80; 85; 90] < qmean [100; 110; 120]) /\
    (r == 0 <-> qmean [80; 85; 90] == qmean [100; 110; 120]) /\
    (0 <= qmean [80; 85; 90] -> r <= 100).
Proof.
  apply (@improvement_pct_sign [100; 110; 120] [80; 85; 90]);
    try discriminate. reflexivity.
Defined.

(** ** The t statistic and the effect size *)

Lemma xdiv_one_nat (n : nat) :
  (0 < n)%nat -> xdiv (xnat 1) (xnat n) = Fin (1 / INR n)%R.
Proof.
  intros Hn. unfold xnat. change (@cnat R _ n) with (INR n).
  rewrite xdiv_fin_R; [|apply not_0_INR; lia].
  simpl. reflexivity.
Qed.

Lemma inv_sum_pos (n m : nat) :
  (0 < n)%nat -> (0 < m)%nat -> (0 < 1 / INR n + 1 / INR m)%R.
Proof.
  intros Hn Hm.
  assert (0 < INR n)%R by (apply lt_0_INR; lia).
  assert (0 < INR m)%R by (apply lt_0_INR; lia).
  assert (0 < / INR n)%R by now apply Rinv_0_lt_compat.
  assert (0 < / INR m)%R by now apply Rinv_0_lt_compat.
  lra.
Qed.

(** scipy's statistic, step by step, for samples with a variance. *)
Lemma ttest_ind_unfold (t_sf : R -> R -> R) (b w : list R) :
  (2 <= length b)%nat -> (2 <= length w)%nat ->
  fst (ttest_ind t_sf b w)
  = xdiv (Fin (rmean b - rmean w)%R)
         (Fin (pooled_sd b w * sqrt (1 / INR (length b) + 1 / INR (length w)))%R).
Proof.
  intros Hb Hw. unfold ttest_ind. cbn [fst].
  rewrite !mean_fin by (intros ->; simpl in *; lia).
  rewrite !var_fin by assumption.
  rewrite !xint_sub_R, !xdiv_one_nat by lia.
  cbn [xmul xadd xsub xopp].
  assert (2 <= INR (length b))%R by (apply (le_INR 2); lia).
  assert (2 <= INR (length w))%R by (apply (le_INR 2); lia).
  rewrite xdiv_fin_R by (rewrite plus_INR; simpl; lra).
  pose proof (pooled_var_nonneg b w Hb Hw) as Hp.
  pose proof (inv_sum_pos (n := length b) (m := length w)) as Hs.
  assert (Hs' : (0 < 1 / INR (length b) + 1 / INR (length w))%R)
    by (apply Hs; lia).
  cbn [xmul cadd cmul copp CarrierR].
  match goal with
  | |- context [xsqrt (Fin ?v)] =>
      replace v with ((((INR (length b) - 1) * sample_sd b ^ 2
                        + (INR (length w) - 1) * sample_sd w ^ 2)
                       / (INR (length b) + INR (length w) - 2))
                      * (1 / INR (length b) + 1 / INR (length w)))%R
  end.
  2: { rewrite !sample_sd_sqr by assumption. rewrite plus_INR. simpl.
       field. repeat split; lra. }
  rewrite xsqrt_fin by (apply Rmult_le_pos; lra).
  rewrite sqrt_mult by lra.
  reflexivity.
Qed.

Lemma xdiv_xdiv_pos (a s c : R) :
  (0 < c)%R ->
  xdiv (xdiv (Fin a) (Fin s)) (Fin c) = xdiv (Fin a) (Fin (s * c)%R).
Proof.
  intros Hc. unfold xdiv at 2 3. unfold sgn. cbn [ccmp czero CarrierR cmul cinv].
  destruct (Rcompare_spec s 0) as [-> | Hs | Hs].
  - rewrite Rmult_0_l, Rcompare_zero.
    destruct (Rcompare a 0); cbn [inf_of_sign xdiv]; try reflexivity;
      unfold sgn; cbn [ccmp czero CarrierR];
      destruct (Rcompare_spec c 0); try lra; reflexivity.
  - destruct (Rcompare_spec (s * c) 0) as [E|L|G]; try nra.
    rewrite xdiv_fin_R by lra. f_equal. field. lra.
  - destruct (Rcompare_spec (s * c) 0) as [E|L|G]; try nra.
    rewrite xdiv_fin_R by lra. f_equal. field. lra.
Qed.

(** X9: for two samples of size at least 2, the t statistic of line 90 is
    the Cohen's d of line 91 divided by sqrt(1/n1 + 1/n2): the two numbers
    the script prints side by side always have the same sign and are
    infinite or NaN together. *)
Theorem t_statistic_from_cohens_d (t_sf : R -> R -> R) (b w : list R) :
  (2 <= length b)%nat -> (2 <= length w)%nat ->
  fst (fst (hypothesis_test t_sf b w))
  = xdiv (snd (hypothesis_test t_sf b w))
         (Fin (sqrt (1 / INR (length b) + 1 / INR (length w)))%R).
Proof.
  intros Hb Hw. unfold hypothesis_test. cbn [fst snd].
  rewrite ttest_ind_unfold, cohens_d_unfold by assumption.
  symmetry. apply xdiv_xdiv_pos.
  apply sqrt_lt_R0. apply inv_sum_pos; lia.
Qed.

Lemma t_statistic_from_cohens_d_witness :
  fst (fst (hypothesis_test (fun _ _ => 0%R) [1; 2]%R [3; 5]%R))
  = xdiv (snd (hypothesis_test (fun _ _ => 0%R) [1; 2]%R [3; 5]%R))
         (Fin (sqrt (1 / INR 2 + 1 / INR 2))%R).
Proof.
  apply (@t_statistic_from_cohens_d (fun _ _ => 0%R) [1; 2]%R [3; 5]%R);
    simpl; lia.
Defined.

(** ** Which rows the tests use *)

Lemma filter_filter_implies {A : Type} (p q : A -> bool) (l : list A) :
  (forall x, p x = true -> q x = true) ->
  filter p (filter q l) = filter p l.
Proof.
  intros Hpq. induction l as [|x l IH]; simpl; [reflexivity|].
  destruct (q x) eqn:Eq; simpl.
  - destruct (p x); congruence.
  - destruct (p x) eqn:Ep; [|exact IH].
    apply Hpq in Ep. congruence.
Qed.

Lemma in_unique_by_string (x : String.string) (l : list String.string) :
  In x (unique_by String.eqb l) <-> In x l.
Proof.
  induction l as [|y l IH]; simpl; [tauto|].
  rewrite filter_In, IH, negb_true_iff. split.
  - intros [->|[H _]]; auto.
  - intros [->|H]; auto.
    destruct (String.eqb y x) eqn:E; [left; now apply String.eqb_eq|auto].
Qed.

(** X10: every interface label that occurs in the file gets a row in the
    comparison table of line 77, but the tests and the improvements of lines
    88-102 read the baseline and the wim rows only: taking all other rows
    out of the frame leaves both samples, and so t, p and d, as they are. *)
Theorem tests_read_baseline_and_wim (t_sf : R -> R -> R) (collab : list CollabRow) :
  (forall label,
     In label (map fst (groupby String.leb String.eqb interface_type collab)) <->
     exists r, In r collab /\ interface_type r = label) /\
  by_interface "baseline" (tested_rows collab) = by_interface "baseline" collab /\
  by_interface "wim" (tested_rows collab) = by_interface "wim" collab /\
  (forall col : CollabRow -> Q,
     hypothesis_test t_sf
       (column col (by_interface "baseline" (tested_rows collab)))
       (column col (by_interface "wim" (tested_rows collab)))
     = hypothesis_test t_sf
         (column col (by_interface "baseline" collab))
         (column col (by_interface "wim" collab)) /\
     improvement_pct
       (map col (by_interface "baseline" (tested_rows collab)))
       (map col (by_interface "wim" (tested_rows collab)))
     = improvement_pct (map col (by_interface "baseline" collab))
                       (map col (by_interface "wim" collab))).
Proof.
  assert (Eb : by_interface "baseline" (tested_rows collab)
               = by_interface "baseline" collab).
  { unfold by_interface, tested_rows. apply filter_filter_implies.
    intros x ->. reflexivity. }
  assert (Ew : by_interface "wim" (tested_rows collab) = by_interface "wim" collab).
  { unfold by_interface, tested_rows. apply filter_filter_implies.
    intros x ->. apply orb_true_r. }
  split; [|split; [exact Eb|split; [exact Ew|]]].
  - intros label. unfold groupby. rewrite map_map. cbn [fst]. rewrite map_id.
    split.
    + intros H. apply (Permutation_in _ (sort_by_perm String.leb _)) in H.
      apply in_unique_by_string, in_map_iff in H.
      destruct H as (r & <- & Hr). eauto.
    + intros (r & Hr & <-).
      apply (Permutation_in _ (Permutation_sym (sort_by_perm String.leb _))).
      apply in_unique_by_string, in_map. exact Hr.
  - intros col. now rewrite Eb, Ew.
Qed.

(** ** The order of the rows in the file *)

Lemma filter_perm {A : Type} (p : A -> bool) (l l' : list A) :
  Permutation l l' -> Permutation (filter p l) (filter p l').
Proof.
  induction 1 as [|x l l' _ IH|x y l|l1 l2 l3 _ IH1 _ IH2]; simpl.
  - constructor.
  - destruct (p x); [now constructor|exact IH].
  - destruct (p x), (p y); try reflexivity. apply perm_swap.
  - now transitivity (filter p l2).
Qed.

(** Two sorted lists with the same elements are equal when the order tells
    the elements apart. *)
Lemma sorted_perm_equal {A : Type} (leb : A -> A -> bool) (l l' : list A) :
  (forall x y, In x l -> In y l -> leb x y = true -> leb y x = true -> x = y) ->
  StronglySorted (fun x y => leb x y = true) l ->
  StronglySorted (fun x y => leb x y = true) l' ->
  Permutation l l' -> l = l'.
Proof.
  revert l'. induction l as [|a l IH]; intros l' Hanti Hs Hs' Hp.
  - apply Permutation_nil in Hp. now subst.
  - destruct l' as [|b l'].
    { symmetry in Hp. now apply Permutation_nil in Hp. }
    inversion Hs as [|? ? Hsl Hal]; subst.
    inversion Hs' as [|? ? Hsl' Hbl']; subst.
    rewrite Forall_forall in Hal, Hbl'.
    assert (Hab : a = b).
    { assert (Hb : In b (a :: l))
        by (eapply Permutation_in; [symmetry; exact Hp|now left]).
      assert (Ha : In a (b :: l'))
        by (eapply Permutation_in; [exact Hp|now left]).
      destruct Hb as [Hb|Hb]; [exact Hb|].
      destruct Ha as [Ha|Ha]; [now symmetry|].
      apply Hanti; [now left|now right|now apply Hal|now apply Hbl']. }
    subst b. f_equal.
    apply IH; auto.
    + intros x y Hx Hy. apply Hanti; now right.
    + now apply Permutation_cons_inv in Hp.
Qed.

(** X11: the report of a session does not depend on the order of the rows in
    the file, as long as the timestamps within the session are distinct:
    [sort_values] puts the rows of the session in the same order. *)
Theorem session_report_order_independent (tech tech' : list TechRow) (s : Z) :
  Permutation tech tech' ->
  (forall x y, In x tech -> In y tech -> session_id x = s -> session_id y = s ->
               timestamp_sec x == timestamp_sec y -> x = y) ->
  sort_values timestamp_sec (by_session s tech)
  = sort_values timestamp_sec (by_session s tech') /\
  session_report tech s = session_report tech' s.
Proof.
  intros Hp Hdist.
  assert (E : sort_values timestamp_sec (by_session s tech)
              = sort_values timestamp_sec (by_session s tech')).
  { apply (@sorted_perm_equal _ (fun x y => Qle_bool (timestamp_sec x) (timestamp_sec y))).
    - intros x y Hx Hy Hxy Hyx.
      apply (Permutation_in _ (sort_by_perm _ _)) in Hx, Hy.
      apply by_session_in in Hx, Hy. destruct Hx as [Hx Hsx], Hy as [Hy Hsy].
      apply Qle_bool_iff in Hxy, Hyx.
      apply Hdist; auto. now apply Qle_antisym.
    - apply (@sort_by_sorted _ _ timestamp_leb_total timestamp_leb_trans).
    - apply (@sort_by_sorted _ _ timestamp_leb_total timestamp_leb_trans).
    - unfold sort_values.
      rewrite (sort_by_perm _ (by_session s tech)).
      rewrite (sort_by_perm _ (by_session s tech')).
      now apply filter_perm. }
  split; [exact E|]. unfold session_report. now rewrite E.
Qed.

(** ** When the report has no finite value *)

Lemma session_report_fields (tech : list TechRow) (s : Z) (rep : SessionReport) :
  session_report tech s = Ok rep ->
  latency_jitter rep
  = std (column network_latency_ms (sort_values timestamp_sec (by_session s tech))) /\
  fps_drift_rate rep = xdiv (Fin (fps_drift rep)) (Fin (rep_duration rep)) /\
  calib_drift_rate rep = xdiv (Fin (calib_drift rep)) (Fin (rep_duration rep)) /\
  by_session s tech <> [].
Proof.
  unfold session_report, drift_of. intros H.
  destruct (iloc_first _) as [first|e] eqn:Hf; simpl in H; [|discriminate].
  destruct (iloc_last _) as [last|e] eqn:Hl; simpl in H; [|discriminate].
  injection H as <-. simpl. repeat split.
  intros E. rewrite E in Hf. discriminate.
Qed.

Lemma sorted_session_length (tech : list TechRow) (s : Z) :
  length (sort_values timestamp_sec (by_session s tech))
  = length (by_session s tech).
Proof.
  apply Permutation_length, sort_by_perm.
Qed.

(** X12: the jitter a session report holds is NaN exactly when the session
    has a single row; for a session with two rows or more it is a finite
    number that is not negative. *)
Theorem jitter_cases (tech : list TechRow) (s : Z) (rep : SessionReport) :
  session_report tech s = Ok rep ->
  (latency_jitter rep = NaN <-> length (by_session s tech) = 1%nat) /\
  ((2 <= length (by_session s tech))%nat ->
   exists v, latency_jitter rep = Fin v /\ (0 <= v)%R).
Proof.
  intros H. destruct (session_report_fields _ _ H) as (Hj & _ & _ & Hne).
  rewrite Hj.
  assert (Hlen : length (column network_latency_ms
                           (sort_values timestamp_sec (by_session s tech)))
                 = length (by_session s tech))
    by (unfold column; now rewrite length_map, sorted_session_length).
  assert (Hbig : (2 <= length (by_session s tech))%nat ->
                 exists v, std (column network_latency_ms
                                  (sort_values timestamp_sec (by_session s tech)))
                           = Fin v /\ (0 <= v)%R).
  { intros H2. rewrite std_fin by (rewrite Hlen; exact H2).
    eexists. split; [reflexivity|]. apply sqrt_pos. }
  split; [|exact Hbig]. split.
  - intros Hnan.
    destruct (by_session s tech) as [|x [|y l]] eqn:E; [congruence|reflexivity|].
    destruct Hbig as (v & Hv & _); [simpl; lia|]. congruence.
  - intros H1. unfold std. rewrite var_small by lia. reflexivity.
Qed.

(** X13: the two drift rates of a report are the drifts divided by the
    duration of the first row when that is not zero; when it is zero they
    are infinite or NaN, and nothing is raised. *)
Theorem drift_rate_cases (tech : list TechRow) (s : Z) (rep : SessionReport) :
  session_report tech s = Ok rep ->
  (~ rep_duration rep == 0 ->
   fps_drift_rate rep = Fin (fps_drift rep / rep_duration rep) /\
   calib_drift_rate rep = Fin (calib_drift rep / rep_duration rep)) /\
  (rep_duration rep == 0 ->
   (forall q, fps_drift_rate rep <> Fin q) /\
   (forall q, calib_drift_rate rep <> Fin q) /\
   (fps_drift rep == 0 -> fps_drift_rate rep = NaN)).
Proof.
  intros H. destruct (session_report_fields _ _ H) as (_ & Hf & Hc & _).
  rewrite Hf, Hc. unfold xdiv, sgn.
  change (ccmp (rep_duration rep) czero) with (Qcompare (rep_duration rep) 0).
  change (ccmp (fps_drift rep) czero) with (Qcompare (fps_drift rep) 0).
  change (ccmp (calib_drift rep) czero) with (Qcompare (calib_drift rep) 0).
  split.
  - intros Hnz.
    destruct (Qcompare_spec (rep_duration rep) 0); [contradiction| |];
      split; reflexivity.
  - intros Hz.
    destruct (Qcompare_spec (rep_duration rep) 0) as [_|L|G]; try lra.
    repeat split.
    + intros q. destruct (Qcompare (fps_drift rep) 0); discriminate.
    + intros q. destruct (Qcompare (calib_drift rep) 0); discriminate.
    + intros Hd. destruct (Qcompare_spec (fps_drift rep) 0); try lra. reflexivity.
Qed.









Lemma session_report_order_independent_witness :
  sort_values timestamp_sec (by_session 1 five_latencies)
  = sort_values timestamp_sec (by_session 1 (rev five_latencies)) /\
  session_report five_latencies 1 = session_report (rev five_latencies) 1.
Proof.
  apply (@session_report_order_independent five_latencies (rev five_latencies) 1%Z).
  - apply Permutation_rev.
  - intros x y Hx Hy _ _ Heq. simpl in Hx, Hy.
    repeat (destruct Hx as [<-|Hx]; [|]);
      try contradiction;
      repeat (destruct Hy as [<-|Hy]; [|]);
      try contradiction; try reflexivity;
      exfalso; revert Heq; vm_compute; discriminate.
Defined.

Lemma jitter_cases_witness :
  exists rep,
    session_report five_latencies 1 = Ok rep /\
    (latency_jitter rep = NaN <-> length (by_session 1 five_latencies) = 1%nat) /\
    ((2 <= length (by_session 1 five_latencies))%nat ->
     exists v, latency_jitter rep = Fin v /\ (0 <= v)%R).
Proof.
  eexists. split; [reflexivity|].
  apply (@jitter_cases five_latencies 1%Z). reflexivity.
Defined.

Lemma drift_rate_cases_witness :
  exists rep,
    session_report five_latencies 1 = Ok rep /\
    (~ rep_duration rep == 0 ->
     fps_drift_rate rep = Fin (fps_drift rep / rep_duration rep) /\
     calib_drift_rate rep = Fin (calib_drift rep / rep_duration rep)) /\
    (rep_duration rep == 0 ->
     (forall q, fps_drift_rate rep <> Fin q) /\
     (forall q, calib_drift_rate rep <> Fin q) /\
     (fps_drift rep == 0 -> fps_drift_rate rep = NaN)).
Proof.
  eexists. split; [reflexivity|].
  apply (@drift_rate_cases five_latencies 1%Z). reflexivity.
Defined.

(** ** A change of unit *)

Lemma rsum_rescale (a c : R) (xs : list R) :
  rsum (rescale a c xs) = (a * rsum xs + INR (length xs) * c)%R.
Proof.
  induction xs as [|x xs IH]; [simpl; lra|].
  change (rsum (rescale a c (x :: xs)))
    with ((a * x + c) + rsum (rescale a c xs))%R.
  change (rsum (x :: xs)) with (x + rsum xs)%R.
  change (length (x :: xs)) with (S (length xs)).
  rewrite IH, S_INR. lra.
Qed.

Lemma length_rescale (a c : R) (xs : list R) : length (rescale a c xs) = length xs.
Proof. apply length_map. Qed.

Lemma rmean_rescale (a c : R) (xs : list R) :
  xs <> [] -> rmean (rescale a c xs) = (a * rmean xs + c)%R.
Proof.
  intros Hne. unfold rmean. rewrite rsum_rescale, length_rescale.
  field. apply not_0_INR. destruct xs; simpl; [congruence|lia].
Qed.

Lemma rsum_scaled_squares (a c m : R) (xs : list R) :
  rsum (map (fun y => (y - (a * m + c)) * (y - (a * m + c)))%R (rescale a c xs))
  = (a * a * rsum (map (fun x => (x - m) * (x - m))%R xs))%R.
Proof.
  induction xs as [|x xs IH]; [simpl; lra|].
  simpl in *. rewrite IH. ring.
Qed.

Lemma sample_var_rescale (a c : R) (xs : list R) :
  (2 <= length xs)%nat ->
  sample_var (rescale a c xs) = (a * a * sample_var xs)%R.
Proof.
  intros Hn. unfold sample_var.
  rewrite rmean_rescale by (intros ->; simpl in *; lia).
  rewrite rsum_scaled_squares, length_rescale.
  assert (2 <= INR (length xs))%R by (apply (le_INR 2); lia).
  field. lra.
Qed.

Lemma sample_sd_rescale (a c : R) (xs : list R) :
  (0 < a)%R -> (2 <= length xs)%nat ->
  sample_sd (rescale a c xs) = (a * sample_sd xs)%R.
Proof.
  intros Ha Hn. unfold sample_sd. rewrite sample_var_rescale by assumption.
  rewrite sqrt_mult by (try apply sample_var_nonneg; try assumption; nra).
  rewrite sqrt_square by lra. reflexivity.
Qed.

Lemma pooled_sd_rescale (a c : R) (b w : list R) :
  (0 < a)%R -> (2 <= length b)%nat -> (2 <= length w)%nat ->
  pooled_sd (rescale a c b) (rescale a c w) = (a * pooled_sd b w)%R.
Proof.
  intros Ha Hb Hw. unfold pooled_sd.
  rewrite !sample_sd_rescale, !length_rescale by assumption.
  pose proof (pooled_var_nonneg b w Hb Hw) as Hp.
  assert (2 <= INR (length b))%R by (apply (le_INR 2); lia).
  assert (2 <= INR (length w))%R by (apply (le_INR 2); lia).
  match goal with
  | |- sqrt ?v = _ =>
      replace v with (a * a * (((INR (length b) - 1) * sample_sd b ^ 2
                                + (INR (length w) - 1) * sample_sd w ^ 2)
                               / (INR (length b) + INR (length w) - 2)))%R
        by (field; lra)
  end.
  rewrite sqrt_mult by (try assumption; nra).
  rewrite sqrt_square by lra. reflexivity.
Qed.

Lemma xdiv_scale (a x s : R) :
  (0 < a)%R -> xdiv (Fin (a * x)%R) (Fin (a * s)%R) = xdiv (Fin x) (Fin s).
Proof.
  intros Ha. unfold xdiv, sgn. cbn [ccmp czero cmul cinv CarrierR].
  destruct (Rcompare_spec s 0) as [-> | Hs | Hs].
  - rewrite Rmult_0_r, Rcompare_zero.
    destruct (Rcompare_spec x 0) as [-> | Hx | Hx].
    + now rewrite Rmult_0_r, Rcompare_zero.
    + destruct (Rcompare_spec (a * x) 0); try nra. reflexivity.
    + destruct (Rcompare_spec (a * x) 0); try nra. reflexivity.
  - destruct (Rcompare_spec (a * s) 0); try nra. f_equal. field. lra.
  - destruct (Rcompare_spec (a * s) 0); try nra. f_equal. field. lra.
Qed.

(** X14: the test does not depend on the unit of the measurements: for two
    samples of size at least 2, multiplying every value of both samples by
    the same positive factor and adding the same constant (seconds to
    minutes, or a shifted clock) leaves the t statistic, the p-value and
    Cohen's d as they are. *)
Theorem hypothesis_test_unit_free (t_sf : R -> R -> R) (a c : R) (b w : list R) :
  (0 < a)%R -> (2 <= length b)%nat -> (2 <= length w)%nat ->
  hypothesis_test t_sf (rescale a c b) (rescale a c w) = hypothesis_test t_sf b w.
Proof.
  intros Ha Hb Hw.
  assert (Hb' : (2 <= length (rescale a c b))%nat) by now rewrite length_rescale.
  assert (Hw' : (2 <= length (rescale a c w))%nat) by now rewrite length_rescale.
  assert (Hnb : b <> []) by (intros ->; simpl in *; lia).
  assert (Hnw : w <> []) by (intros ->; simpl in *; lia).
  assert (Ed : cohens_d (rescale a c b) (rescale a c w) = cohens_d b w).
  { rewrite !cohens_d_unfold by assumption.
    rewrite !rmean_rescale, pooled_sd_rescale by assumption.
    replace (a * rmean b + c - (a * rmean w + c))%R
      with (a * (rmean b - rmean w))%R by ring.
    now apply xdiv_scale. }
  assert (Et : fst (ttest_ind t_sf (rescale a c b) (rescale a c w))
               = fst (ttest_ind t_sf b w)).
  { rewrite !ttest_ind_unfold by assumption.
    rewrite !rmean_rescale, pooled_sd_rescale, !length_rescale by assumption.
    replace (a * rmean b + c - (a * rmean w + c))%R
      with (a * (rmean b - rmean w))%R by ring.
    rewrite Rmult_assoc. now apply xdiv_scale. }
  unfold hypothesis_test. rewrite Ed. f_equal.
  unfold ttest_ind in *. cbn [fst] in Et. rewrite !length_rescale in *.
  now rewrite Et.
Qed.

Lemma hypothesis_test_unit_free_witness :
  hypothesis_test (fun _ _ => 0%R) (rescale (/ 60) 0 [60; 120]%R)
                  (rescale (/ 60) 0 [180; 300]%R)
  = hypothesis_test (fun _ _ => 0%R) [60; 120]%R [180; 300]%R.
Proof.
  apply (@hypothesis_test_unit_free (fun _ _ => 0%R) (/ 60)%R 0%R
           [60; 120]%R [180; 300]%R); [lra|simpl; lia|simpl; lia].
Defined.
